(** * The employee / user HTTP backend: routes, validation and store

    A shallow embedding of [src/routes/employeeRoutes.js] and
    [src/routes/userRoutes.js].  The route handlers are embedded as they are
    written: a validation gate, then database calls on the shared handle,
    then a status code and a JSON body, all inside a [try]/[catch] that
    answers 500.

    The collaborators the handlers call but do not define (express-validator,
    the MongoDB driver, bcrypt, the JavaScript built-ins [Number] and [Date])
    are the fields of the class [Library]; every theorem holds for every
    library, under the hypotheses it names. *)

From Stdlib Require Import ZArith Ascii String.
From stdpp Require Import base option list strings pretty gmap.

Set Warnings "-register-all,-clear-no-such-hyp".

Open Scope string_scope.
Open Scope list_scope.
Open Scope Z_scope.

(** ** JavaScript values *)

(** A JSON value as [express.json()] produces it, plus the [Date] objects the
    handlers create.  Numbers are the integral ones and [NaN]. *)
Inductive Value : Type :=
  | VNull
  | VBool (b : bool)
  | VNum (n : Z)
  | VNaN
  | VStr (s : string)
  | VDate (ms : Z)
  | VInvalidDate
  | VArr (items : list Value)
  | VObj (props : list (string * Value)).

(** A [Date] is its time value, the milliseconds since 1970-01-01T00:00Z.
    [days_from_civil] counts the days from the epoch to a civil date. *)
Definition days_from_civil (y m d : Z) : Z :=
  let y' := if m <=? 2 then y - 1 else y in
  let era := y' / 400 in
  let yoe := y' - era * 400 in
  let doy := (153 * (if 2 <? m then m - 3 else m + 9) + 2) / 5 + d - 1 in
  let doe := yoe * 365 + yoe / 4 - yoe / 100 + doy in
  era * 146097 + doe - 719468.

Definition utc_midnight (y m d : Z) : Z := days_from_civil y m d * 86400000.

(** Reading a property gives a value or [undefined] ([None]). *)
Abbreviation JsVal := (option Value).

(** [if (v)]: the falsy values are [undefined], [null], [false], [0], [NaN]
    and the empty string. *)
Definition truthy (v : JsVal) : bool :=
  match v with
  | None | Some VNull | Some (VBool false) | Some (VNum 0) | Some VNaN
  | Some (VStr "") => false
  | Some _ => true
  end.

(** ** The document store *)

Record ObjectId : Type := MkObjectId { toString : string }.

#[global] Instance ObjectId_eq_dec : EqDecision ObjectId.
Proof. solve_decision. Defined.

Record Doc : Type := MkDoc { _id : ObjectId; fields : gmap string Value }.

Inductive Collection : Type := users | employees.

Record Db : Type := MkDb { db_users : list Doc; db_employees : list Doc }.

Definition collection (c : Collection) (d : Db) : list Doc :=
  match c with users => db_users d | employees => db_employees d end.

Definition set_collection (c : Collection) (l : list Doc) (d : Db) : Db :=
  match c with
  | users => {| db_users := l; db_employees := db_employees d |}
  | employees => {| db_users := db_users d; db_employees := l |}
  end.

(** The database calls a handler can make; the trace of a request records
    them in order. *)
Inductive Op : Type :=
  | OpFind (c : Collection)
  | OpFindOne (c : Collection)
  | OpInsertOne (c : Collection)
  | OpUpdateOne (c : Collection)
  | OpDeleteOne (c : Collection).

(** ** The external collaborators *)

Class Library : Type := {
  (** express-validator: a standard validator applied to a request field *)
  notEmpty : JsVal → bool;
  isEmail : JsVal → bool;
  isNumeric : JsVal → bool;
  isISO8601 : JsVal → bool;
  isMongoId : JsVal → bool;
  isLength_min_6 : JsVal → bool;
  (** mongodb: [new ObjectId(v)], [None] when it throws *)
  new_ObjectId : JsVal → option ObjectId;
  (** mongodb: the filter [{ field: q }] on the stored value of the field *)
  eq_filter : JsVal → JsVal → bool;
  (** mongodb: [$set] with a key that is not a top-level field name (a dotted
      path, a [$] name, the empty name); [None] when it throws *)
  set_paths : gmap string Value → Doc → option Doc;
  (** bcrypt: [compare(data, hash)] and [hash(data, 10)] with the salt drawn;
      [None] when they throw *)
  bcrypt_compare : JsVal → JsVal → option bool;
  bcrypt_hash : JsVal → string → option Value;
  (** JavaScript: [Number(v)] and [new Date(v)] *)
  Number : JsVal → Value;
  new_Date : JsVal → Value
}.

(** What the environment supplies to one request: the identifier the driver
    generates for an insert, the readings of the clock ([new Date()]), and
    the salt bcrypt draws. *)
Record Env : Type := MkEnv {
  generated_id : ObjectId;
  clock : nat → Z;
  salt : string
}.

(** ** Handlers as asynchronous computations *)

(** The world of one request: the store, the database calls made so far,
    and which driver calls fail ([throws n]: the call number [n] of the
    request meets a driver or network error). *)
Record World : Type := MkWorld { store : Db; trace : list Op; throws : nat → bool }.

(** An [async] body: it reads and writes the store, and either returns or
    throws ([None]). *)
Definition Async (A : Type) : Type := World → option A * World.

Definition ret {A} (a : A) : Async A := λ w, (Some a, w).
Definition bind {A B} (m : Async A) (k : A → Async B) : Async B :=
  λ w, match m w with
       | (Some a, w') => k a w'
       | (None, w') => (None, w')
       end.

#[global] Instance Async_ret : MRet Async := @ret.
#[global] Instance Async_bind : MBind Async := λ A B k m, bind m k.

(** A call that may throw and touches nothing. *)
Definition lift {A} (o : option A) : Async A := λ w, (o, w).

Definition logged (o : Op) (w : World) : World :=
  {| store := store w; trace := trace w ++ [o]; throws := throws w |}.

(** Whether the driver call about to be made fails. *)
Definition driver_error (w : World) : bool := throws w (length (trace w)).

(** A collection is the list of its documents in the order of insertion.
    Every call can meet a driver error and throw; besides, an insert throws
    on a duplicate key and an update when the driver refuses it. *)

(** [collection.find({}).toArray()] *)
Definition find_all (c : Collection) : Async (list Doc) :=
  λ w, if driver_error w then (None, logged (OpFind c) w)
       else (Some (collection c (store w)), logged (OpFind c) w).

(** [collection.findOne(filter)]: the first document, in the order of
    insertion, that the filter accepts. *)
Definition findOne (c : Collection) (filter : Doc → bool) : Async (option Doc) :=
  λ w, if driver_error w then (None, logged (OpFindOne c) w)
       else (Some (List.find filter (collection c (store w))), logged (OpFindOne c) w).

(** [collection.insertOne(doc)]: the document is appended under the
    generated identifier; an identifier already in the collection is a
    duplicate-key error. *)
Definition insertOne (c : Collection) (oid : ObjectId) (doc : gmap string Value)
  : Async ObjectId :=
  λ w, let docs := collection c (store w) in
       if driver_error w then (None, logged (OpInsertOne c) w)
       else if existsb (λ d, bool_decide (_id d = oid)) docs
       then (None, logged (OpInsertOne c) w)
       else (Some oid,
             logged (OpInsertOne c)
               {| store := set_collection c (docs ++ [MkDoc oid doc]) (store w);
                  trace := trace w; throws := throws w |}).

Fixpoint update_first (filter : Doc → bool) (f : Doc → option Doc) (l : list Doc)
  : option (list Doc) :=
  match l with
  | [] => Some []
  | d :: l' =>
      if filter d then d' ← f d; Some (d' :: l')
      else l'' ← update_first filter f l'; Some (d :: l'')
  end.

Fixpoint remove_first (filter : Doc → bool) (l : list Doc) : list Doc :=
  match l with
  | [] => []
  | d :: l' => if filter d then l' else d :: remove_first filter l'
  end.

Fixpoint has_dot (s : string) : bool :=
  match s with
  | EmptyString => false
  | String c s' => if Ascii.eqb c "."%char then true else has_dot s'
  end.

(** A key that names a top-level field of the document other than [_id]. *)
Definition top_level_field (k : string) : bool :=
  match k with
  | EmptyString => false
  | String c _ => negb (Ascii.eqb c "$"%char) && negb (has_dot k) && negb (String.eqb k "_id")
  end.

(** The update document [{ $set: upd }] applied to one document.  Top-level
    fields are overwritten or added.  [_id] is immutable: a request body
    never carries an [ObjectId], so setting it always changes it and the
    driver throws. *)
Definition apply_set `{Library} (upd : gmap string Value) (d : Doc) : option Doc :=
  if forallb top_level_field (map fst (map_to_list upd))
  then Some {| _id := _id d; fields := upd ∪ fields d |}
  else if bool_decide (is_Some (upd !! "_id")) then None
  else set_paths upd d.

(** [collection.updateOne(filter, { $set: upd })] *)
Definition updateOne `{Library} (c : Collection) (filter : Doc → bool)
    (upd : gmap string Value) : Async unit :=
  λ w, if driver_error w then (None, logged (OpUpdateOne c) w)
       else
         match update_first filter (apply_set upd) (collection c (store w)) with
         | Some docs =>
             (Some tt, logged (OpUpdateOne c)
                         {| store := set_collection c docs (store w);
                            trace := trace w; throws := throws w |})
         | None => (None, logged (OpUpdateOne c) w)
         end.

(** [collection.deleteOne(filter)] *)
Definition deleteOne (c : Collection) (filter : Doc → bool) : Async unit :=
  λ w, if driver_error w then (None, logged (OpDeleteOne c) w)
       else
         (Some tt,
          logged (OpDeleteOne c)
            {| store := set_collection c (remove_first filter (collection c (store w)))
                          (store w);
               trace := trace w; throws := throws w |}).

(** The filter [{ _id: oid }]. *)
Definition by_id (oid : ObjectId) (d : Doc) : bool := bool_decide (_id d = oid).

(** ** Requests and responses *)

Record Request : Type := MkRequest {
  req_params : gmap string Value;
  req_query : gmap string Value;
  req_body : gmap string Value
}.

(** The public representation of an employee. *)
Record FormattedEmployee : Type := MkFormatted {
  employee_id : string;
  first_name : JsVal;
  last_name : JsVal;
  email : JsVal;
  position : JsVal;
  salary : JsVal;
  date_of_joining : JsVal;
  department : JsVal
}.

Inductive Json : Type :=
  | Failure (message : string)                      (* { status: false, message } *)
  | Message (message : string)                      (* { message } *)
  | CreatedEmployee (message : string) (id : string)  (* { message, employee_id } *)
  | CreatedUser (message : string) (id : string)      (* { message, user_id } *)
  | LoggedIn (message : string) (jwt_token : string)  (* { message, jwt_token } *)
  | OneEmployee (e : FormattedEmployee)
  | EmployeeList (l : list FormattedEmployee).

Record Response : Type := MkResponse { status : Z; json : Json }.

(** [try { ... } catch (error) { res.status(500).json(...) }] *)
Definition try_catch (m : Async Response) : World → Response * World :=
  λ w, match m w with
       | (Some r, w') => (r, w')
       | (None, w') => (MkResponse 500 (Failure "Internal server error"), w')
       end.

(** One request served on a store: the response, the store afterwards and
    the database calls made. *)
Record Outcome : Type := MkOutcome { response : Response; db_after : Db; ops : list Op }.

(** Serving a request whose driver calls fail as [errors] says. *)
Definition serve_with (errors : nat → bool) (h : World → Response * World) (d : Db)
  : Outcome :=
  let '(r, w) := h (MkWorld d [] errors) in
  {| response := r; db_after := store w; ops := trace w |}.

(** Serving a request on a database that answers every call. *)
Definition serve (h : World → Response * World) (d : Db) : Outcome :=
  serve_with (λ _, false) h d.

(** ** The validation layer *)

Inductive Location : Type := InBody | InParams | InQuery.

Record ValidationChain : Type := MkChain {
  location : Location;
  path : string;
  is_optional : bool;
  validator : JsVal → bool;
  msg : string
}.

Definition chain_on (l : Location) (f : string) : ValidationChain :=
  {| location := l; path := f; is_optional := false;
     validator := λ _, true; msg := "Invalid value" |}.

Definition body := chain_on InBody.
Definition param := chain_on InParams.
Definition query := chain_on InQuery.

Definition optional (c : ValidationChain) : ValidationChain :=
  {| location := location c; path := path c; is_optional := true;
     validator := validator c; msg := msg c |}.

Definition check (v : JsVal → bool) (c : ValidationChain) : ValidationChain :=
  {| location := location c; path := path c; is_optional := is_optional c;
     validator := v; msg := msg c |}.

Definition withMessage (m : string) (c : ValidationChain) : ValidationChain :=
  {| location := location c; path := path c; is_optional := is_optional c;
     validator := validator c; msg := m |}.

(** Method chaining: [c ▹ f] is [c.f]. *)
Notation "c ▹ f" := (f c) (at level 40, left associativity, only parsing).

Definition field_value (c : ValidationChain) (req : Request) : JsVal :=
  match location c with
  | InBody => req_body req !! path c
  | InParams => req_params req !! path c
  | InQuery => req_query req !! path c
  end.

(** Whether the request violates the rule.  An optional rule is skipped when
    the field is [undefined]. *)
Definition violated (req : Request) (c : ValidationChain) : bool :=
  match field_value c req with
  | None => if is_optional c then false else negb (validator c None)
  | Some v => negb (validator c (Some v))
  end.

(** [validationResult(req).array()] after the chains ran as middleware, and
    the [msg] of each error. *)
Definition validationResult (chains : list ValidationChain) (req : Request)
  : list string :=
  map msg (filter (λ c, violated req c = true) chains).

Section Routes.
Context `{Library}.

(** ** [employeeRoutes.js] *)

Definition validateEmployee : list ValidationChain := [
  body "first_name" ▹ check notEmpty ▹ withMessage "First name is required";
  body "last_name" ▹ check notEmpty ▹ withMessage "Last name is required";
  body "email" ▹ check isEmail ▹ withMessage "Valid email is required";
  body "position" ▹ check notEmpty ▹ withMessage "Position is required";
  body "salary" ▹ check isNumeric ▹ withMessage "Salary must be a number";
  body "date_of_joining" ▹ check isISO8601 ▹ withMessage "Valid date is required";
  body "department" ▹ check notEmpty ▹ withMessage "Department is required"
].

Definition validateEmployeeUpdate : list ValidationChain := [
  body "first_name" ▹ optional ▹ check notEmpty ▹ withMessage "First name cannot be empty";
  body "last_name" ▹ optional ▹ check notEmpty ▹ withMessage "Last name cannot be empty";
  body "email" ▹ optional ▹ check isEmail ▹ withMessage "Valid email is required";
  body "position" ▹ optional ▹ check notEmpty ▹ withMessage "Position cannot be empty";
  body "salary" ▹ optional ▹ check isNumeric ▹ withMessage "Salary must be a number";
  body "date_of_joining" ▹ optional ▹ check isISO8601 ▹ withMessage "Valid date is required";
  body "department" ▹ optional ▹ check notEmpty ▹ withMessage "Department cannot be empty"
].

Definition validateObjectId : list ValidationChain := [
  param "eid" ▹ check isMongoId ▹ withMessage "Invalid employee ID"
].

Definition validateQueryId : list ValidationChain := [
  query "eid" ▹ check isMongoId ▹ withMessage "Invalid employee ID"
].

(** A property that is [undefined] when the document is built is stored as
    [null] (the driver's default). *)
Definition stored (v : JsVal) : Value := default VNull v.

Definition formatted (emp : Doc) : FormattedEmployee :=
  {| employee_id := toString (_id emp);
     first_name := fields emp !! "first_name";
     last_name := fields emp !! "last_name";
     email := fields emp !! "email";
     position := fields emp !! "position";
     salary := fields emp !! "salary";
     date_of_joining := fields emp !! "date_of_joining";
     department := fields emp !! "department" |}.

Definition fail (code : Z) (m : string) : Async Response :=
  mret (MkResponse code (Failure m)).

(** GET /api/v1/emp/employees *)
Definition get_employees (req : Request) : World → Response * World :=
  try_catch (
    emps ← find_all employees;
    mret (MkResponse 200 (EmployeeList (map formatted emps)))).

(** POST /api/v1/emp/employees *)
Definition post_employees (env : Env) (req : Request) : World → Response * World :=
  try_catch (
    match validationResult validateEmployee req with
    | m :: _ => fail 400 m
    | [] =>
        let first_name := req_body req !! "first_name" in
        let last_name := req_body req !! "last_name" in
        let email := req_body req !! "email" in
        let position := req_body req !! "position" in
        let salary := req_body req !! "salary" in
        let date_of_joining := req_body req !! "date_of_joining" in
        let department := req_body req !! "department" in
        existingEmployee ← findOne employees (λ d, eq_filter email (fields d !! "email"));
        match existingEmployee with
        | Some _ => fail 400 "Employee already exists with this email"
        | None =>
            let newEmployee : gmap string Value :=
              list_to_map [
                ("first_name", stored first_name);
                ("last_name", stored last_name);
                ("email", stored email);
                ("position", stored position);
                ("salary", Number salary);
                ("date_of_joining", new_Date date_of_joining);
                ("department", stored department);
                ("created_at", VDate (clock env 0));
                ("updated_at", VDate (clock env 1))
              ] in
            insertedId ← insertOne employees (generated_id env) newEmployee;
            mret (MkResponse 201
                    (CreatedEmployee "Employee created successfully." (toString insertedId)))
        end
    end).

(** GET /api/v1/emp/employees/{eid} *)
Definition get_employees_eid (req : Request) : World → Response * World :=
  try_catch (
    match validationResult validateObjectId req with
    | m :: _ => fail 400 m
    | [] =>
        let eid := req_params req !! "eid" in
        oid ← lift (new_ObjectId eid);
        employee ← findOne employees (by_id oid);
        match employee with
        | None => fail 404 "Employee not found"
        | Some employee => mret (MkResponse 200 (OneEmployee (formatted employee)))
        end
    end).

(** [{ ...req.body, updated_at: new Date() }], then the two conversions. *)
Definition updateData (now : Value) (req_body : gmap string Value) : gmap string Value :=
  let u0 := <["updated_at" := now]> req_body in
  let u1 := if truthy (u0 !! "salary")
            then <["salary" := Number (u0 !! "salary")]> u0 else u0 in
  if truthy (u1 !! "date_of_joining")
  then <["date_of_joining" := new_Date (u1 !! "date_of_joining")]> u1 else u1.

(** PUT /api/v1/emp/employees/{eid} *)
Definition put_employees_eid (env : Env) (req : Request) : World → Response * World :=
  try_catch (
    match validationResult (validateObjectId ++ validateEmployeeUpdate) req with
    | m :: _ => fail 400 m
    | [] =>
        let eid := req_params req !! "eid" in
        oid ← lift (new_ObjectId eid);
        existingEmployee ← findOne employees (by_id oid);
        match existingEmployee with
        | None => fail 404 "Employee not found"
        | Some _ =>
            let updateData := updateData (VDate (clock env 0)) (req_body req) in
            oid' ← lift (new_ObjectId eid);
            updateOne employees (by_id oid') updateData;;
            mret (MkResponse 200 (Message "Employee details updated successfully."))
        end
    end).

(** DELETE /api/v1/emp/employees?eid=xxx *)
Definition delete_employees (req : Request) : World → Response * World :=
  try_catch (
    match validationResult validateQueryId req with
    | m :: _ => fail 400 m
    | [] =>
        let eid := req_query req !! "eid" in
        oid ← lift (new_ObjectId eid);
        existingEmployee ← findOne employees (by_id oid);
        match existingEmployee with
        | None => fail 404 "Employee not found"
        | Some _ =>
            oid' ← lift (new_ObjectId eid);
            deleteOne employees (by_id oid');;
            mret (MkResponse 200 (Message "Employee deleted successfully."))
        end
    end).

(** ** [userRoutes.js] *)

Definition validateSignup : list ValidationChain := [
  body "username" ▹ check notEmpty ▹ withMessage "Username is required";
  body "email" ▹ check isEmail ▹ withMessage "Valid email is required";
  body "password" ▹ check isLength_min_6
    ▹ withMessage "Password must be at least 6 characters"
].

Definition validateLogin : list ValidationChain := [
  body "email" ▹ check isEmail ▹ withMessage "Valid email is required";
  body "password" ▹ check notEmpty ▹ withMessage "Password is required"
].

(** POST /api/v1/user/signup *)
Definition post_signup (env : Env) (req : Request) : World → Response * World :=
  try_catch (
    match validationResult validateSignup req with
    | m :: _ => fail 400 m
    | [] =>
        let username := req_body req !! "username" in
        let email := req_body req !! "email" in
        let password := req_body req !! "password" in
        existingUser ← findOne users
          (λ u, eq_filter email (fields u !! "email")
                || eq_filter username (fields u !! "username"));
        match existingUser with
        | Some _ => fail 400 "User already exists with this email or username"
        | None =>
            hashedPassword ← lift (bcrypt_hash password (salt env));
            let newUser : gmap string Value :=
              list_to_map [
                ("username", stored username);
                ("email", stored email);
                ("password", hashedPassword);
                ("created_at", VDate (clock env 0));
                ("updated_at", VDate (clock env 1))
              ] in
            insertedId ← insertOne users (generated_id env) newUser;
            mret (MkResponse 201
                    (CreatedUser "User created successfully." (toString insertedId)))
        end
    end).

(** The filter [{ $or: [{ email }, { username: email }] }]. *)
Definition email_or_username (email : JsVal) (u : Doc) : bool :=
  eq_filter email (fields u !! "email") || eq_filter email (fields u !! "username").

(** POST /api/v1/user/login *)
Definition post_login (req : Request) : World → Response * World :=
  try_catch (
    match validationResult validateLogin req with
    | m :: _ => fail 400 m
    | [] =>
        let email := req_body req !! "email" in
        let password := req_body req !! "password" in
        user ← findOne users (email_or_username email);
        match user with
        | None => fail 401 "Invalid Username and password"
        | Some user =>
            isValidPassword ← lift (bcrypt_compare password (fields user !! "password"));
            if negb isValidPassword
            then fail 401 "Invalid Username and password"
            else mret (MkResponse 200 (LoggedIn "Login successful." "Optional implementation"))
        end
    end).

End Routes.

(** ** A reference library

    An executable instance of [Library], used to run the handlers on concrete
    requests.  It follows the collaborators on the inputs used below: plain
    strings and numbers. *)
Module Reference.

(** The string a standard validator sees. *)
Definition text (v : JsVal) : string :=
  match v with
  | Some (VStr s) => s
  | Some (VNum n) => pretty n
  | Some (VBool true) => "true"
  | Some (VBool false) => "false"
  | Some (VDate _) | Some (VObj _) => "[object Object]"
  | Some (VArr (VStr s :: _)) => s
  | _ => ""
  end.

Definition is_digit (c : ascii) : bool :=
  let n := nat_of_ascii c in (48 <=? n)%nat && (n <=? 57)%nat.

Definition is_hex (c : ascii) : bool :=
  let n := nat_of_ascii c in
  is_digit c || ((65 <=? n)%nat && (n <=? 70)%nat) || ((97 <=? n)%nat && (n <=? 102)%nat).

Definition chars (s : string) : list ascii := list_ascii_of_string s.

Definition all_chars (p : ascii → bool) (s : string) : bool := forallb p (chars s).

Definition digit_value (c : ascii) : Z := Z.of_nat (nat_of_ascii c) - 48.

Definition decimal (s : string) : Z :=
  fold_left (λ acc c, 10 * acc + digit_value c) (chars s) 0.

Definition not_empty (v : JsVal) : bool := negb (String.eqb (text v) "").

Fixpoint up_to (p : ascii → bool) (cs : list ascii) : list ascii :=
  match cs with
  | [] => []
  | c :: cs' => if p c then [] else c :: up_to p cs'
  end.

(** One [@], something before it, and a dot inside what follows. *)
Definition is_email (v : JsVal) : bool :=
  let cs := chars (text v) in
  let at_sign := Ascii.eqb "@"%char in
  let before := up_to at_sign cs in
  let after := drop (S (length before)) cs in
  negb (forallb (λ c, negb (at_sign c)) cs)
  && negb (existsb at_sign after)
  && (0 <? length before)%nat
  && match after, rev after with
     | a :: _, z :: _ =>
         negb (Ascii.eqb a "."%char) && negb (Ascii.eqb z "."%char)
         && existsb (Ascii.eqb "."%char) after
     | _, _ => false
     end.

Definition is_numeric (v : JsVal) : bool :=
  let s := text v in negb (String.eqb s "") && all_chars is_digit s.

(** The calendar form [YYYY-MM-DD]. *)
Definition iso_date (s : string) : option (Z * Z * Z) :=
  match chars s with
  | [y1; y2; y3; y4; d1; m1; m2; d2; a1; a2] =>
      if forallb is_digit [y1; y2; y3; y4; m1; m2; a1; a2]
         && Ascii.eqb d1 "-"%char && Ascii.eqb d2 "-"%char
      then
        let y := decimal (string_of_list_ascii [y1; y2; y3; y4]) in
        let m := decimal (string_of_list_ascii [m1; m2]) in
        let d := decimal (string_of_list_ascii [a1; a2]) in
        if (1 <=? m) && (m <=? 12) && (1 <=? d) && (d <=? 31)
        then Some (y, m, d) else None
      else None
  | _ => None
  end.

Definition is_iso8601 (v : JsVal) : bool := bool_decide (is_Some (iso_date (text v))).

Definition is_mongo_id (v : JsVal) : bool :=
  let s := text v in (String.length s =? 24)%nat && all_chars is_hex s.

Definition is_length_min_6 (v : JsVal) : bool := (6 <=? String.length (text v))%nat.

Definition lower (c : ascii) : ascii :=
  let n := nat_of_ascii c in
  if (65 <=? n)%nat && (n <=? 90)%nat then ascii_of_nat (n + 32) else c.

Definition object_id (v : JsVal) : option ObjectId :=
  match v with
  | Some (VStr s) =>
      if is_mongo_id v
      then Some (MkObjectId (string_of_list_ascii (map lower (chars s))))
      else None
  | _ => None
  end.

Definition scalar_eqb (a b : Value) : bool :=
  match a, b with
  | VNull, VNull | VNaN, VNaN => true
  | VBool x, VBool y => bool_decide (x = y)
  | VNum x, VNum y | VDate x, VDate y => x =? y
  | VStr x, VStr y => String.eqb x y
  | _, _ => false
  end.

Definition equality_filter (q stored : JsVal) : bool :=
  match q, stored with
  | Some q, Some (VArr items) => existsb (scalar_eqb q) items
  | Some q, Some v => scalar_eqb q v
  | Some VNull, None | None, None | None, Some VNull => true
  | _, _ => false
  end.

(** A stand-in for bcrypt: the digest is the version tag, the salt and the
    data; non-string arguments throw. *)
Definition digest (data : JsVal) (salt : string) : option Value :=
  match data with
  | Some (VStr d) => Some (VStr ("$2b$10$" +:+ salt +:+ "$" +:+ d))
  | _ => None
  end.

Fixpoint ends_with (suffix s : string) : bool :=
  String.eqb suffix s
  || match s with
     | EmptyString => false
     | String _ s' => ends_with suffix s'
     end.

Definition verify (data hash : JsVal) : option bool :=
  match data, hash with
  | Some (VStr d), Some (VStr h) => Some (ends_with ("$" +:+ d) h)
  | _, _ => None
  end.

Definition to_number (v : JsVal) : Value :=
  match v with
  | Some (VNum n) => VNum n
  | Some (VStr s) => if all_chars is_digit s then VNum (decimal s) else VNaN
  | Some VNull | Some (VBool false) => VNum 0
  | Some (VBool true) => VNum 1
  | Some (VDate ms) => VNum ms
  | _ => VNaN
  end.

Definition to_date (v : JsVal) : Value :=
  match v with
  | Some (VNum n) | Some (VDate n) => VDate n
  | Some (VStr s) =>
      match iso_date s with
      | Some (y, m, d) => VDate (utc_midnight y m d)
      | None => VInvalidDate
      end
  | Some VNull => VDate 0
  | _ => VInvalidDate
  end.

Definition library : Library := {|
  notEmpty := not_empty;
  isEmail := is_email;
  isNumeric := is_numeric;
  isISO8601 := is_iso8601;
  isMongoId := is_mongo_id;
  isLength_min_6 := is_length_min_6;
  new_ObjectId := object_id;
  eq_filter := equality_filter;
  set_paths := λ _ _, None;
  bcrypt_compare := verify;
  bcrypt_hash := digest;
  Number := to_number;
  new_Date := to_date
|}.

End Reference.

(** ** The routes that take an identifier *)

(** The three routes that take an identifier, and where each reads it. *)
Inductive ByIdRoute : Type := FetchById | UpdateById | DeleteById.

Definition identifier (r : ByIdRoute) (req : Request) : JsVal :=
  match r with
  | FetchById | UpdateById => req_params req !! "eid"
  | DeleteById => req_query req !! "eid"
  end.

Definition by_id_route `{Library} (env : Env) (r : ByIdRoute)
  : Request → World → Response * World :=
  match r with
  | FetchById => get_employees_eid
  | UpdateById => put_employees_eid env
  | DeleteById => delete_employees
  end.

(** ** Vocabulary of the properties *)

(** The seven declared employee fields, in the order [validateEmployee]
    declares them. *)
Definition employee_fields : list string :=
  ["first_name"; "last_name"; "email"; "position"; "salary"; "date_of_joining";
   "department"].

(** The library reads an identifier back from its string form: the validator
    accepts it and the constructor returns the identifier. *)
Definition reads_back `{Library} (o : ObjectId) : Prop :=
  isMongoId (Some (VStr (toString o))) = true
  ∧ new_ObjectId (Some (VStr (toString o))) = Some o.

(** No two records of the collection carry the same email. *)
Definition unique_emails (l : list Doc) : Prop :=
  ∀ a b, a ∈ l → b ∈ l → is_Some (fields a !! "email") →
         fields a !! "email" = fields b !! "email" → _id a = _id b.

(** The record an update leaves behind when it sets top-level fields. *)
Definition updated `{Library} (env : Env) (req : Request) (e : Doc) : Doc :=
  {| _id := _id e;
     fields := updateData (VDate (clock env 0)) (req_body req) ∪ fields e |}.

(** What the update route stores for a supplied key: the server's time for
    [updated_at], the conversion of a truthy [salary] or [date_of_joining],
    and the supplied value otherwise. *)
Definition stored_for `{Library} (env : Env) (k : string) (v : Value) : Value :=
  if bool_decide (k = "updated_at") then VDate (clock env 0)
  else if bool_decide (k = "salary") && truthy (Some v) then Number (Some v)
  else if bool_decide (k = "date_of_joining") && truthy (Some v) then new_Date (Some v)
  else v.

(** A key of the body is written into a record: the record holds the key
    with the supplied value, or with its conversion for the two converted
    fields. *)
Definition written `{Library} (k : string) (v : Value) (e : Doc) : Prop :=
  fields e !! k = Some v
  ∨ (k = "salary" ∧ fields e !! k = Some (Number (Some v)))
  ∨ (k = "date_of_joining" ∧ fields e !! k = Some (new_Date (Some v))).

(** The merge as a statement about every key: whenever an update passes
    validation on an existing record, each key of its body is written into
    the stored record. *)
Definition every_body_key_written (L : Library) : Prop :=
  ∀ (env : Env) (req : Request) (d : Db) (e : Doc) (k : string) (v : Value),
    NoDup (map _id (db_employees d)) →
    e ∈ db_employees d →
    new_ObjectId (req_params req !! "eid") = Some (_id e) →
    validationResult (validateObjectId ++ validateEmployeeUpdate) req = [] →
    req_body req !! k = Some v →
    ∃ e', e' ∈ db_employees (db_after (serve (put_employees_eid env req) d))
          ∧ _id e' = _id e
          ∧ written k v e'.

(** The same with the weakest reading of "written": the record has the key. *)
Definition every_body_key_present (L : Library) : Prop :=
  ∀ (env : Env) (req : Request) (d : Db) (e : Doc) (k : string) (v : Value),
    NoDup (map _id (db_employees d)) →
    e ∈ db_employees d →
    new_ObjectId (req_params req !! "eid") = Some (_id e) →
    validationResult (validateObjectId ++ validateEmployeeUpdate) req = [] →
    req_body req !! k = Some v →
    ∃ e', e' ∈ db_employees (db_after (serve (put_employees_eid env req) d))
          ∧ _id e' = _id e
          ∧ is_Some (fields e' !! k).

(** The request of the round trip. *)
Definition round_trip_body : gmap string Value :=
  list_to_map [
    ("first_name", VStr "A"); ("last_name", VStr "B"); ("email", VStr "a@b.com");
    ("position", VStr "Eng"); ("salary", VStr "50000");
    ("date_of_joining", VStr "2023-01-01"); ("department", VStr "Tech")].

Definition create_request (b : gmap string Value) : Request :=
  {| req_params := ∅; req_query := ∅; req_body := b |}.

Definition fetch_request (eid : string) : Request :=
  {| req_params := {["eid" := VStr eid]}; req_query := ∅; req_body := ∅ |}.

Definition update_request (eid : string) (b : gmap string Value) : Request :=
  {| req_params := {["eid" := VStr eid]}; req_query := ∅; req_body := b |}.

Definition delete_request (eid : string) : Request :=
  {| req_params := ∅; req_query := {["eid" := VStr eid]}; req_body := ∅ |}.

(** Every record of the collection carries an email the validator accepts. *)
Definition emails_valid `{Library} (l : list Doc) : Prop :=
  ∀ e, e ∈ l → ∃ v, fields e !! "email" = Some v ∧ isEmail (Some v) = true.

(** ** Vocabulary of the login properties *)

Definition login_request (b : gmap string Value) : Request :=
  {| req_params := ∅; req_query := ∅; req_body := b |}.

(** The answer to a failed login. *)
Definition unauthorized : Response :=
  MkResponse 401 (Failure "Invalid Username and password").

(** A stored user with the email and the username exchanged. *)
Definition swap_login_fields (u : Doc) : Doc :=
  let f := fields u in
  let f1 := match f !! "username" with
            | Some v => <["email" := v]> f
            | None => delete "email" f
            end in
  {| _id := _id u;
     fields := match f !! "email" with
               | Some v => <["username" := v]> f1
               | None => delete "username" f1
               end |}.

(** ** Sample data *)
Module Sample.

Definition env : Env :=
  {| generated_id := MkObjectId "64b7f0c2a1d3e4f5a6b7c8d9";
     clock := λ n, 1700000000000 + Z.of_nat n;
     salt := "N9qo8uLOickgx2ZMRZoMye" |}.

Definition ann : Doc :=
  MkDoc (MkObjectId "64b7f0c2a1d3e4f5a6b7c8a1")
    (list_to_map [
       ("first_name", VStr "Ann"); ("last_name", VStr "Lee");
       ("email", VStr "ann@example.com"); ("position", VStr "Eng");
       ("salary", VNum 70000); ("date_of_joining", VDate (utc_midnight 2020 2 29));
       ("department", VStr "Tech");
       ("created_at", VDate 1600000000000); ("updated_at", VDate 1600000000001)]).

Definition bob : Doc :=
  MkDoc (MkObjectId "64b7f0c2a1d3e4f5a6b7c8b2")
    (list_to_map [
       ("first_name", VStr "Bob"); ("last_name", VStr "Ray");
       ("email", VStr "bob@example.com"); ("position", VStr "Ops");
       ("salary", VNum 60000); ("date_of_joining", VDate (utc_midnight 2021 7 1));
       ("department", VStr "Infra");
       ("created_at", VDate 1610000000000); ("updated_at", VDate 1610000000001)]).

(** Two accounts: the first is found by its email, the second by a username
    that has the shape of an email. *)
Definition account_1 : Doc :=
  MkDoc (MkObjectId "64b7f0c2a1d3e4f5a6b7c8c3")
    (list_to_map [
       ("username", VStr "ann"); ("email", VStr "ann@example.com");
       ("password", VStr "$2b$10$N9qo8uLOickgx2ZMRZoMye$opensesame");
       ("created_at", VDate 1600000000000); ("updated_at", VDate 1600000000000)]).

Definition account_2 : Doc :=
  MkDoc (MkObjectId "64b7f0c2a1d3e4f5a6b7c8c4")
    (list_to_map [
       ("username", VStr "ops@example.com"); ("email", VStr "bob@example.com");
       ("password", VStr "$2b$10$N9qo8uLOickgx2ZMRZoMye$letmein99");
       ("created_at", VDate 1610000000000); ("updated_at", VDate 1610000000000)]).

Definition db : Db := {| db_users := [account_1; account_2]; db_employees := [ann; bob] |}.

End Sample.

(** ** The seven routes as one interface

    [server.js] mounts the two routers on one application and hands the same
    database to every request.  A [Call] is one request to one route. *)
Inductive Call : Type :=
  | Signup (env : Env) (req : Request)
  | Login (req : Request)
  | ListEmployees (req : Request)
  | CreateEmployee (env : Env) (req : Request)
  | FetchEmployee (req : Request)
  | UpdateEmployee (env : Env) (req : Request)
  | DeleteEmployee (req : Request).

Definition handler `{Library} (c : Call) : World → Response * World :=
  match c with
  | Signup env req => post_signup env req
  | Login req => post_login req
  | ListEmployees req => get_employees req
  | CreateEmployee env req => post_employees env req
  | FetchEmployee req => get_employees_eid req
  | UpdateEmployee env req => put_employees_eid env req
  | DeleteEmployee req => delete_employees req
  end.

Definition request_of (c : Call) : Request :=
  match c with
  | Signup _ req | Login req | ListEmployees req | CreateEmployee _ req
  | FetchEmployee req | UpdateEmployee _ req | DeleteEmployee req => req
  end.

(** The validation middleware in front of each route. *)
Definition chains_of `{Library} (c : Call) : list ValidationChain :=
  match c with
  | Signup _ _ => validateSignup
  | Login _ => validateLogin
  | ListEmployees _ => []
  | CreateEmployee _ _ => validateEmployee
  | FetchEmployee _ => validateObjectId
  | UpdateEmployee _ _ => validateObjectId ++ validateEmployeeUpdate
  | DeleteEmployee _ => validateQueryId
  end.

(** The collection a route works on. *)
Definition collection_of (c : Call) : Collection :=
  match c with
  | Signup _ _ | Login _ => users
  | _ => employees
  end.

Definition other_collection (c : Collection) : Collection :=
  match c with users => employees | employees => users end.

(** The status codes each route can answer with. *)
Definition statuses_of (c : Call) : list Z :=
  match c with
  | Signup _ _ => [201; 400; 500]
  | Login _ => [200; 400; 401; 500]
  | ListEmployees _ => [200; 500]
  | CreateEmployee _ _ => [201; 400; 500]
  | FetchEmployee _ | UpdateEmployee _ _ | DeleteEmployee _ => [200; 400; 404; 500]
  end.


(** The shapes the trace of one request on collection [c] can have: nothing,
    one read, or one [findOne] followed by one write. *)
Definition trace_shapes (c : Collection) : list (list Op) :=
  [ []; [OpFind c]; [OpFindOne c];
    [OpFindOne c; OpInsertOne c]; [OpFindOne c; OpUpdateOne c];
    [OpFindOne c; OpDeleteOne c] ].

(** Requests served one after the other on the shared database. *)
Fixpoint serve_all `{Library} (cs : list Call) (d : Db) : Db :=
  match cs with
  | [] => d
  | c :: cs' => serve_all cs' (db_after (serve (handler c) d))
  end.

Definition is_read (o : Op) : bool :=
  match o with OpFind _ | OpFindOne _ => true | _ => false end.

(** Identifiers are pairwise distinct in each collection. *)
Definition ids_distinct (d : Db) : Prop :=
  NoDup (map _id (db_users d)) ∧ NoDup (map _id (db_employees d)).

(** The validation in front of a route that takes an identifier. *)
Definition by_id_chains `{Library} (r : ByIdRoute) : list ValidationChain :=
  match r with
  | FetchById => validateObjectId
  | UpdateById => validateObjectId ++ validateEmployeeUpdate
  | DeleteById => validateQueryId
  end.

(** The document a create inserts. *)
Definition new_employee `{Library} (env : Env) (req : Request) : Doc :=
  {| _id := generated_id env;
     fields := list_to_map [
       ("first_name", stored (req_body req !! "first_name"));
       ("last_name", stored (req_body req !! "last_name"));
       ("email", stored (req_body req !! "email"));
       ("position", stored (req_body req !! "position"));
       ("salary", Number (req_body req !! "salary"));
       ("date_of_joining", new_Date (req_body req !! "date_of_joining"));
       ("department", stored (req_body req !! "department"));
       ("created_at", VDate (clock env 0));
       ("updated_at", VDate (clock env 1))] |}.

(** The document a signup inserts, given the hash. *)
Definition new_user `{Library} (env : Env) (req : Request) (hashed : Value) : Doc :=
  {| _id := generated_id env;
     fields := list_to_map [
       ("username", stored (req_body req !! "username"));
       ("email", stored (req_body req !! "email"));
       ("password", hashed);
       ("created_at", VDate (clock env 0));
       ("updated_at", VDate (clock env 1))] |}.

(** An update call sets top-level fields only; other calls qualify. *)
Definition sets_top_level (c : Call) : Prop :=
  match c with
  | UpdateEmployee _ req => ∀ k, is_Some (req_body req !! k) → top_level_field k = true
  | _ => True
  end.

Definition is_update (c : Call) : bool :=
  match c with UpdateEmployee _ _ => true | _ => false end.

(** The reference library with an email validator that accepts strings
    only. *)
Definition strings_only_library : Library := {|
  notEmpty := Reference.not_empty;
  isEmail := λ v, match v with
                  | Some (VStr _) => Reference.is_email v
                  | _ => false
                  end;
  isNumeric := Reference.is_numeric;
  isISO8601 := Reference.is_iso8601;
  isMongoId := Reference.is_mongo_id;
  isLength_min_6 := Reference.is_length_min_6;
  new_ObjectId := Reference.object_id;
  eq_filter := Reference.equality_filter;
  set_paths := λ _ _, None;
  bcrypt_compare := Reference.verify;
  bcrypt_hash := Reference.digest;
  Number := Reference.to_number;
  new_Date := Reference.to_date
|}.

(** * Properties of the routes *)

(** ** The validation gate *)

Section Validation.
Context `{Library}.

Lemma validationResult_cons c chains req :
  validationResult (c :: chains) req =
  if violated req c then msg c :: validationResult chains req
  else validationResult chains req.
Proof.
  unfold validationResult. rewrite filter_cons.
  destruct (violated req c); case_decide; naive_solver.
Qed.

Lemma validationResult_nil chains req :
  validationResult chains req = [] ↔ Forall (λ c, violated req c = false) chains.
Proof.
  induction chains as [|c chains IH].
  - split; [constructor | reflexivity].
  - rewrite validationResult_cons, Forall_cons.
    destruct (violated req c); [split; [discriminate | intros [? _]; discriminate] |].
    rewrite IH. tauto.
Qed.


Lemma validationResult_ext chains req req' :
  Forall (λ c, violated req' c = violated req c) chains →
  validationResult chains req' = validationResult chains req.
Proof.
  induction 1 as [|c chains Hc _ IH]; [done |].
  by rewrite !validationResult_cons, Hc, IH.
Qed.

End Validation.

(** Membership in a list that is written out. *)
Ltac listed :=
  repeat first [apply list_elem_of_here | apply list_elem_of_further].

Ltac each_listed H :=
  repeat (apply elem_of_cons in H as [-> | H]); [.. | by apply elem_of_nil in H].

Ltac not_listed H :=
  repeat (apply elem_of_cons in H as [? | H]; [discriminate |]);
  by apply elem_of_nil in H.

(** ** Running a handler *)

Ltac run :=
  unfold serve, serve_with, try_catch, fail, mbind, Async_bind, bind, mret, Async_ret,
    ret, lift, findOne, find_all, insertOne, updateOne, deleteOne, driver_error, logged;
  simpl.

(** A fetch, update or delete whose identifier the [isMongoId] chain rejects
    is answered 400 with the identifier message; no database call is made
    and the store is as before. *)
Theorem malformed_identifier_rejected `{Library}
    (r : ByIdRoute) (env : Env) (req : Request) (d : Db) :
  isMongoId (identifier r req) = false →
  serve (by_id_route env r req) d =
    {| response := MkResponse 400 (Failure "Invalid employee ID");
       db_after := d;
       ops := [] |}.
Proof.
  intros Hid.
  assert (Hv : ∀ l, violated req (chain_on l "eid" ▹ check isMongoId
                                   ▹ withMessage "Invalid employee ID")
                    = negb (isMongoId (match l with
                                       | InBody => req_body req !! "eid"
                                       | InParams => req_params req !! "eid"
                                       | InQuery => req_query req !! "eid"
                                       end))).
  { intros l. unfold violated, field_value; simpl. by destruct l; destruct (_ !! _). }
  destruct r; simpl in Hid; unfold by_id_route.
  - unfold get_employees_eid, validateObjectId.
    rewrite validationResult_cons. unfold param. rewrite Hv. simpl. rewrite Hid. by run.
  - unfold put_employees_eid, validateObjectId. simpl app.
    rewrite validationResult_cons. unfold param. rewrite Hv. simpl. rewrite Hid. by run.
  - unfold delete_employees, validateQueryId.
    rewrite validationResult_cons. unfold query. rewrite Hv. simpl. rewrite Hid. by run.
Qed.

(** A delete whose [eid] is not an object id, on the sample store. *)
Lemma malformed_identifier_rejected_witness :
  @isMongoId Reference.library
     (identifier DeleteById (delete_request "not-an-id")) = false
  ∧ serve (@by_id_route Reference.library Sample.env DeleteById
             (delete_request "not-an-id")) Sample.db =
      {| response := MkResponse 400 (Failure "Invalid employee ID");
         db_after := Sample.db;
         ops := [] |}.
Proof.
  split; [reflexivity |].
  apply (@malformed_identifier_rejected Reference.library). reflexivity.
Defined.

(** ** The store *)

Section Store.

Lemma find_none_of {A} (f : A → bool) (l : list A) :
  (∀ x, x ∈ l → f x = false) → List.find f l = None.
Proof.
  induction l as [|a l IH]; [done |]. intros Hall. simpl.
  rewrite (Hall a) by apply list_elem_of_here.
  apply IH. intros x Hx. apply Hall. by apply list_elem_of_further.
Qed.

Lemma find_app_none {A} (f : A → bool) (l l' : list A) :
  List.find f l = None → List.find f (l ++ l') = List.find f l'.
Proof.
  induction l as [|a l IH]; [done |]. simpl.
  destruct (f a); [discriminate | exact IH].
Qed.

Lemma by_id_false (oid : ObjectId) (l : list Doc) :
  oid ∉ map _id l → ∀ x, x ∈ l → by_id oid x = false.
Proof.
  intros Hnot x Hx. unfold by_id. apply bool_decide_eq_false. intros <-.
  apply Hnot. apply list_elem_of_fmap. by exists x.
Qed.

Lemma find_by_id_fresh (oid : ObjectId) (l : list Doc) :
  oid ∉ map _id l → List.find (by_id oid) l = None.
Proof. intros Hnot. apply find_none_of. by apply by_id_false. Qed.

Lemma existsb_fresh (oid : ObjectId) (l : list Doc) :
  oid ∉ map _id l → existsb (λ d, bool_decide (_id d = oid)) l = false.
Proof.
  intros Hnot. induction l as [|a l IH]; [done |]. simpl.
  pose proof (by_id_false oid (a :: l) Hnot a (list_elem_of_here _ _)) as Ha.
  unfold by_id in Ha. rewrite Ha. simpl.
  apply IH. intros Hin. apply Hnot. simpl. by apply list_elem_of_further.
Qed.

(** In a collection whose identifiers are pairwise distinct, a record sits
    between two runs of records with other identifiers. *)
Lemma split_at_record (l : list Doc) (e : Doc) :
  NoDup (map _id l) → e ∈ l →
  ∃ l1 l2, l = l1 ++ e :: l2
           ∧ (∀ x, x ∈ l1 → by_id (_id e) x = false)
           ∧ (∀ x, x ∈ l2 → by_id (_id e) x = false).
Proof.
  intros Hnd (l1 & l2 & ->)%list_elem_of_split. exists l1, l2.
  rewrite map_app in Hnd. simpl in Hnd.
  apply NoDup_app in Hnd as (_ & Hdisj & [Hnot _]%NoDup_cons).
  split; [done |]. split.
  - apply by_id_false. intros Hin. apply (Hdisj _ Hin), list_elem_of_here.
  - by apply by_id_false.
Qed.

Lemma find_split {A} (f : A → bool) (l : list A) (e : A) :
  List.find f l = Some e →
  ∃ l1 l2, l = l1 ++ e :: l2 ∧ (∀ x, x ∈ l1 → f x = false) ∧ f e = true.
Proof.
  induction l as [|a l IH]; [discriminate |]. simpl.
  destruct (f a) eqn:Ha.
  - intros [= ->]. exists [], l. split; [done |]. split; [| done].
    intros x Hx. by apply elem_of_nil in Hx.
  - intros (l1 & l2 & -> & Hl1 & He)%IH. exists (a :: l1), l2.
    split; [done |]. split; [| done].
    intros x [-> | Hx]%elem_of_cons; [done | by apply Hl1].
Qed.

Lemma by_id_self (e : Doc) : by_id (_id e) e = true.
Proof. unfold by_id. by apply bool_decide_eq_true_2. Qed.

Lemma find_at_record {A} (f : A → bool) (l1 l2 : list A) (e : A) :
  (∀ x, x ∈ l1 → f x = false) → f e = true →
  List.find f (l1 ++ e :: l2) = Some e.
Proof.
  intros H1 He. rewrite (find_app_none _ _ _ (find_none_of _ _ H1)).
  simpl. by rewrite He.
Qed.

Lemma update_first_at_record (f : Doc → bool) (g : Doc → option Doc)
    (l1 l2 : list Doc) (e : Doc) :
  (∀ x, x ∈ l1 → f x = false) → f e = true →
  update_first f g (l1 ++ e :: l2) = (λ e', l1 ++ e' :: l2) <$> g e.
Proof.
  intros H1 He. induction l1 as [|a l1 IH]; simpl.
  - rewrite He. by destruct (g e).
  - rewrite (H1 a) by apply list_elem_of_here.
    rewrite IH by (intros x Hx; apply H1; by apply list_elem_of_further).
    by destruct (g e).
Qed.

Lemma remove_first_at_record (f : Doc → bool) (l1 l2 : list Doc) (e : Doc) :
  (∀ x, x ∈ l1 → f x = false) → f e = true →
  remove_first f (l1 ++ e :: l2) = l1 ++ l2.
Proof.
  intros H1 He. induction l1 as [|a l1 IH]; simpl.
  - by rewrite He.
  - rewrite (H1 a) by apply list_elem_of_here.
    by rewrite IH by (intros x Hx; apply H1; by apply list_elem_of_further).
Qed.

End Store.

(** ** Creating an employee *)

Section Create.
Context `{Library}.



(** C2. A create request whose email equals the email of a stored employee
    is answered 400 and inserts nothing: the collection is as before.  The
    equality filter of the store matches a value equal to the one asked
    for. *)
Theorem duplicate_email_rejected (env : Env) (req : Request) (d : Db)
    (e : Doc) (v : Value) :
  e ∈ db_employees d →
  fields e !! "email" = Some v →
  req_body req !! "email" = Some v →
  eq_filter (Some v) (Some v) = true →
  status (response (serve (post_employees env req) d)) = 400
  ∧ db_after (serve (post_employees env req) d) = d
  ∧ OpInsertOne employees ∉ ops (serve (post_employees env req) d).
Proof.
  intros He Hf Hb Heq. unfold post_employees.
  destruct (validationResult validateEmployee req) as [|m rest] eqn:E.
  - run. rewrite Hb.
    destruct (List.find _ (db_employees d)) as [x|] eqn:Hfind.
    + simpl. split_and!; [done | done |].
      by intros ?%list_elem_of_singleton.
    + exfalso. apply list_elem_of_In in He.
      pose proof (find_none _ _ Hfind e He) as Hno. simpl in Hno.
      rewrite Hf in Hno. congruence.
  - run. split_and!; [done | done | apply not_elem_of_nil].
Qed.

(** C5. From a store with no employee whose email is "a@b.com", creating
    the employee of [round_trip_body] is answered 201 with the generated
    identifier, and fetching that identifier afterwards is answered 200 with
    the same seven values, the salary as the number 50000 and the date of
    joining as the date 2023-01-01.  The library accepts the seven values,
    converts the two strings as JavaScript does and reads the identifier
    back; the driver generates an identifier that is not in use. *)
Theorem create_then_fetch (env : Env) (d : Db) :
  Forall (λ s, notEmpty (Some (VStr s)) = true) ["A"; "B"; "Eng"; "Tech"] →
  isEmail (Some (VStr "a@b.com")) = true →
  isNumeric (Some (VStr "50000")) = true →
  isISO8601 (Some (VStr "2023-01-01")) = true →
  Number (Some (VStr "50000")) = VNum 50000 →
  new_Date (Some (VStr "2023-01-01")) = VDate (utc_midnight 2023 1 1) →
  reads_back (generated_id env) →
  generated_id env ∉ map _id (db_employees d) →
  (∀ e, e ∈ db_employees d →
        eq_filter (Some (VStr "a@b.com")) (fields e !! "email") = false) →
  let created := serve (post_employees env (create_request round_trip_body)) d in
  let fetched :=
    serve (get_employees_eid (fetch_request (toString (generated_id env))))
      (db_after created) in
  response created =
    MkResponse 201
      (CreatedEmployee "Employee created successfully." (toString (generated_id env)))
  ∧ response fetched =
      MkResponse 200
        (OneEmployee
           {| employee_id := toString (generated_id env);
              first_name := Some (VStr "A");
              last_name := Some (VStr "B");
              email := Some (VStr "a@b.com");
              position := Some (VStr "Eng");
              salary := Some (VNum 50000);
              date_of_joining := Some (VDate (utc_midnight 2023 1 1));
              department := Some (VStr "Tech") |}).
Proof.
  intros Hne Hem Hnu Hiso Hnum Hdate [Hid Hoid] Hfresh Hnone.
  apply Forall_cons in Hne as [HA Hne]. apply Forall_cons in Hne as [HB Hne].
  apply Forall_cons in Hne as [HE Hne]. apply Forall_cons in Hne as [HT _].
  assert (Hvalid : validationResult validateEmployee (create_request round_trip_body) = []).
  { apply validationResult_nil. unfold validateEmployee.
    repeat (apply Forall_cons; split); [.. | constructor].
    all: unfold violated, field_value; simpl location; simpl path; simpl req_body.
    all: match goal with
         | |- context [round_trip_body !! ?k] =>
             let v := eval vm_compute in (round_trip_body !! k) in
             change (round_trip_body !! k) with v
         end; simpl.
    all: by rewrite ?HA, ?HB, ?HE, ?HT, ?Hem, ?Hnu, ?Hiso. }
  assert (Hvalid' : validationResult validateObjectId
                      (fetch_request (toString (generated_id env))) = []).
  { apply validationResult_nil. unfold validateObjectId.
    apply Forall_cons; split; [| constructor].
    unfold violated, field_value; simpl.
    rewrite lookup_singleton_eq. by rewrite Hid. }
  intros created fetched. subst fetched created.
  unfold post_employees at 1 2. rewrite Hvalid. run.
  change (round_trip_body !! "email") with (Some (VStr "a@b.com")).
  rewrite (find_none_of _ _ Hnone). simpl.
  rewrite (existsb_fresh _ _ Hfresh). simpl.
  split; [reflexivity |].
  unfold get_employees_eid. rewrite Hvalid'. run.
  rewrite lookup_singleton_eq, Hoid. simpl.
  rewrite (find_app_none _ _ _ (find_by_id_fresh _ _ Hfresh)). simpl.
  unfold by_id. simpl. rewrite bool_decide_eq_true_2 by done.
  unfold formatted. simpl _id. simpl fields.
  repeat match goal with
         | |- context [round_trip_body !! ?k] =>
             let v := eval vm_compute in (round_trip_body !! k) in
             change (round_trip_body !! k) with v
         end.
  rewrite Hnum, Hdate. by vm_compute.
Qed.

End Create.


(** A create with the email of a stored employee. *)
Lemma duplicate_email_rejected_witness :
  let req := create_request (<["email" := VStr "ann@example.com"]> round_trip_body) in
  let o := serve (@post_employees Reference.library Sample.env req) Sample.db in
  Sample.ann ∈ db_employees Sample.db
  ∧ status (response o) = 400
  ∧ db_after o = Sample.db
  ∧ OpInsertOne employees ∉ ops o.
Proof.
  intros req o.
  assert (Hin : Sample.ann ∈ db_employees Sample.db) by (simpl; listed).
  split; [exact Hin |].
  apply (@duplicate_email_rejected Reference.library Sample.env req Sample.db
           Sample.ann (VStr "ann@example.com") Hin); reflexivity.
Defined.

(** The round trip on the sample store, with the reference library. *)
Lemma create_then_fetch_witness :
  let created :=
    serve (@post_employees Reference.library Sample.env (create_request round_trip_body))
      Sample.db in
  let fetched :=
    serve (@get_employees_eid Reference.library
             (fetch_request (toString (generated_id Sample.env))))
      (db_after created) in
  status (response created) = 201
  ∧ status (response fetched) = 200
  ∧ ∃ e, json (response fetched) = OneEmployee e
         ∧ salary e = Some (VNum 50000)
         ∧ date_of_joining e = Some (VDate 1672531200000).
Proof.
  intros created fetched.
  destruct (@create_then_fetch Reference.library Sample.env Sample.db) as [Hc Hf].
  - repeat constructor.
  - reflexivity.
  - reflexivity.
  - reflexivity.
  - reflexivity.
  - reflexivity.
  - split; reflexivity.
  - simpl. intros Hin. not_listed Hin.
  - simpl. intros e He. each_listed He; reflexivity.
  - subst fetched created. cbv zeta in Hc, Hf. rewrite Hc, Hf. simpl.
    split; [done |]. split; [done |]. eexists. by split.
Defined.

(** ** Updating an employee *)

Section Update.
Context `{Library}.

Lemma updateData_updated_at (now : Value) (b : gmap string Value) :
  updateData now b !! "updated_at" = Some now.
Proof. unfold updateData. repeat case_match; by simplify_map_eq. Qed.

Lemma updateData_salary (now : Value) (b : gmap string Value) :
  updateData now b !! "salary" =
  if truthy (b !! "salary") then Some (Number (b !! "salary")) else b !! "salary".
Proof.
  unfold updateData. rewrite (lookup_insert_ne b "updated_at" "salary") by done.
  destruct (truthy (b !! "salary")); repeat case_match; by simplify_map_eq.
Qed.

Lemma updateData_date_of_joining (now : Value) (b : gmap string Value) :
  updateData now b !! "date_of_joining" =
  if truthy (b !! "date_of_joining")
  then Some (new_Date (b !! "date_of_joining")) else b !! "date_of_joining".
Proof.
  unfold updateData.
  assert (Hd : ∀ u : gmap string Value,
             (if truthy (<["updated_at":=now]> b !! "salary")
              then <["salary":=Number (u !! "salary")]> (<["updated_at":=now]> b)
              else <["updated_at":=now]> b) !! "date_of_joining"
             = b !! "date_of_joining").
  { intros u. case_match; by simplify_map_eq. }
  rewrite Hd. destruct (truthy (b !! "date_of_joining")); [| exact (Hd _)].
  by simplify_map_eq.
Qed.

Lemma updateData_other (now : Value) (b : gmap string Value) (k : string) :
  k ≠ "updated_at" → k ≠ "salary" → k ≠ "date_of_joining" →
  updateData now b !! k = b !! k.
Proof. intros. unfold updateData. repeat case_match; by simplify_map_eq. Qed.

(** The keys of the update document are the keys of the body and
    [updated_at]. *)
Lemma updateData_keys (now : Value) (b : gmap string Value) (k : string) :
  is_Some (updateData now b !! k) ↔ is_Some (b !! k) ∨ k = "updated_at".
Proof.
  destruct (decide (k = "updated_at")) as [-> | Hu].
  { rewrite updateData_updated_at. naive_solver. }
  destruct (decide (k = "salary")) as [-> | Hs].
  { rewrite updateData_salary. destruct (b !! "salary"); simpl.
    - case_match; naive_solver.
    - split; [intros [? ?]; discriminate | intros [[? ?] | ?]; discriminate]. }
  destruct (decide (k = "date_of_joining")) as [-> | Hj].
  { rewrite updateData_date_of_joining. destruct (b !! "date_of_joining"); simpl.
    - case_match; naive_solver.
    - split; [intros [? ?]; discriminate | intros [[? ?] | ?]; discriminate]. }
  rewrite updateData_other by done. naive_solver.
Qed.

(** [$set] with top-level keys only merges the update into the record. *)
Lemma apply_set_top_level (upd : gmap string Value) (e : Doc) :
  (∀ k, is_Some (upd !! k) → top_level_field k = true) →
  apply_set upd e = Some {| _id := _id e; fields := upd ∪ fields e |}.
Proof.
  intros Htop. unfold apply_set.
  assert (Hall : forallb top_level_field (map fst (map_to_list upd)) = true).
  { apply forallb_forall. intros k Hk. apply Htop.
    apply list_elem_of_In, list_elem_of_fmap in Hk as ([k' v] & -> & Hkv).
    apply elem_of_map_to_list in Hkv. by exists v. }
  by rewrite Hall.
Qed.

Lemma employee_fields_top_level (k : string) :
  k ∈ employee_fields → top_level_field k = true.
Proof. unfold employee_fields. intros Hk. each_listed Hk; reflexivity. Qed.

Lemma updateData_top_level (now : Value) (b : gmap string Value) :
  (∀ k, is_Some (b !! k) → top_level_field k = true) →
  ∀ k, is_Some (updateData now b !! k) → top_level_field k = true.
Proof.
  intros Hb k [Hk | ->]%updateData_keys; [by apply Hb | reflexivity].
Qed.

(** An update that passes validation, names an existing record and sets
    top-level fields only: the record is replaced in place by its merge with
    the update document. *)
Lemma put_existing (env : Env) (req : Request) (d : Db) (e : Doc) (l1 l2 : list Doc) :
  validationResult (validateObjectId ++ validateEmployeeUpdate) req = [] →
  new_ObjectId (req_params req !! "eid") = Some (_id e) →
  db_employees d = l1 ++ e :: l2 →
  (∀ x, x ∈ l1 → by_id (_id e) x = false) →
  (∀ k, is_Some (req_body req !! k) → top_level_field k = true) →
  serve (put_employees_eid env req) d =
    {| response := MkResponse 200 (Message "Employee details updated successfully.");
       db_after := set_collection employees (l1 ++ updated env req e :: l2) d;
       ops := [OpFindOne employees; OpUpdateOne employees] |}.
Proof.
  intros Hvalid Hoid Hsplit Hl1 Htop.
  unfold put_employees_eid. rewrite Hvalid. run. rewrite Hoid. simpl.
  rewrite Hsplit, (find_at_record _ _ _ _ Hl1 (by_id_self e)). simpl.
  rewrite Hsplit, (update_first_at_record _ _ _ _ _ Hl1 (by_id_self e)).
  rewrite apply_set_top_level by (by apply updateData_top_level).
  reflexivity.
Qed.

(** A response 200 to an update means the request passed validation. *)
Lemma put_200_valid (env : Env) (req : Request) (d : Db) :
  status (response (serve (put_employees_eid env req) d)) = 200 →
  validationResult (validateObjectId ++ validateEmployeeUpdate) req = [].
Proof.
  unfold put_employees_eid.
  destruct (validationResult _ req) as [|m rest]; [done |].
  run. discriminate.
Qed.

(** C1. An update that supplies only employee fields and is answered 200
    replaces the record in place: the fields not supplied are as before, and
    a field that differs from before is a supplied field or the update
    timestamp.  Every other record, and the user collection, is as before. *)
Theorem partial_update_frame (env : Env) (req : Request) (d : Db) (e : Doc) :
  NoDup (map _id (db_employees d)) →
  e ∈ db_employees d →
  new_ObjectId (req_params req !! "eid") = Some (_id e) →
  (∀ k, is_Some (req_body req !! k) → k ∈ employee_fields) →
  status (response (serve (put_employees_eid env req) d)) = 200 →
  ∃ l1 l2 e',
    db_employees d = l1 ++ e :: l2
    ∧ db_employees (db_after (serve (put_employees_eid env req) d)) = l1 ++ e' :: l2
    ∧ db_users (db_after (serve (put_employees_eid env req) d)) = db_users d
    ∧ _id e' = _id e
    ∧ (∀ k, req_body req !! k = None → k ≠ "updated_at" →
            fields e' !! k = fields e !! k)
    ∧ (∀ k, fields e' !! k ≠ fields e !! k →
            is_Some (req_body req !! k) ∨ k = "updated_at")
    ∧ fields e' !! "updated_at" = Some (VDate (clock env 0)).
Proof.
  intros Hnd He Hoid Hsub H200.
  destruct (split_at_record _ _ Hnd He) as (l1 & l2 & Hsplit & Hl1 & _).
  pose proof (put_200_valid _ _ _ H200) as Hvalid.
  assert (Htop : ∀ k, is_Some (req_body req !! k) → top_level_field k = true).
  { intros k Hk. by apply employee_fields_top_level, Hsub. }
  rewrite (put_existing env req d e l1 l2 Hvalid Hoid Hsplit Hl1 Htop). simpl.
  assert (Hframe : ∀ k, req_body req !! k = None → k ≠ "updated_at" →
                        fields (updated env req e) !! k = fields e !! k).
  { intros k Hk Hne. unfold updated; simpl.
    apply lookup_union_r.
    destruct (updateData _ _ !! k) eqn:Hu; [| done].
    assert (is_Some (updateData (VDate (clock env 0)) (req_body req) !! k)) as Hs by eauto.
    apply updateData_keys in Hs as [[? Hs] | ?]; congruence. }
  exists l1, l2, (updated env req e). split_and!; try done.
  - intros k Hdiff.
    destruct (req_body req !! k) eqn:Hk; [left; eauto |].
    destruct (decide (k = "updated_at")) as [-> | Hne]; [by right |].
    exfalso. apply Hdiff. by apply Hframe.
  - unfold updated; simpl.
    by rewrite (lookup_union_l' _ _ _ (mk_is_Some _ _ (updateData_updated_at _ _))),
         updateData_updated_at.
Qed.

(** An update document whose keys are those of the body and [updated_at]:
    each key of the body ends with the value [stored_for] gives. *)
Lemma updateData_stored_for (env : Env) (b : gmap string Value) (k : string) (v : Value) :
  b !! k = Some v →
  updateData (VDate (clock env 0)) b !! k = Some (stored_for env k v).
Proof.
  intros Hk. unfold stored_for.
  destruct (decide (k = "updated_at")) as [-> | Hu].
  { by rewrite updateData_updated_at. }
  rewrite (bool_decide_eq_false_2 _ Hu).
  destruct (decide (k = "salary")) as [-> | Hs].
  { rewrite updateData_salary, Hk, (bool_decide_eq_true_2 _ eq_refl).
    by destruct (truthy (Some v)). }
  rewrite (bool_decide_eq_false_2 _ Hs).
  destruct (decide (k = "date_of_joining")) as [-> | Hj].
  { rewrite updateData_date_of_joining, Hk, (bool_decide_eq_true_2 _ eq_refl).
    by destruct (truthy (Some v)). }
  rewrite (bool_decide_eq_false_2 _ Hj). simpl.
  by rewrite updateData_other.
Qed.

(** The update rules read the identifier and the seven declared fields and
    nothing else. *)
Lemma update_validation_reads_declared (req req' : Request) :
  req_params req' !! "eid" = req_params req !! "eid" →
  (∀ k, k ∈ employee_fields → req_body req' !! k = req_body req !! k) →
  validationResult (validateObjectId ++ validateEmployeeUpdate) req'
  = validationResult (validateObjectId ++ validateEmployeeUpdate) req.
Proof.
  intros Hp Hb. apply validationResult_ext.
  unfold validateObjectId, validateEmployeeUpdate. simpl app.
  repeat (apply Forall_cons; split); [.. | constructor].
  all: unfold violated, field_value; simpl; rewrite ?Hp; try done.
  all: rewrite Hb by (unfold employee_fields; listed); done.
Qed.

(** C10, as the code has it.  An update that passes validation on an
    existing record and whose body keys are top-level field names is answered
    200, and every key of the body is then a field of the stored record:
    [updated_at] with the server's time, a truthy [salary] or
    [date_of_joining] with its conversion, every other key, declared or not,
    with the value supplied.  Keys outside the seven declared fields are not
    validated: a request that agrees on the identifier and the declared
    fields passes validation too. *)
Theorem body_keys_merged (env : Env) (req : Request) (d : Db) (e : Doc) :
  NoDup (map _id (db_employees d)) →
  e ∈ db_employees d →
  new_ObjectId (req_params req !! "eid") = Some (_id e) →
  validationResult (validateObjectId ++ validateEmployeeUpdate) req = [] →
  (∀ k, is_Some (req_body req !! k) → top_level_field k = true) →
  status (response (serve (put_employees_eid env req) d)) = 200
  ∧ (∃ l1 l2 e',
       db_employees d = l1 ++ e :: l2
       ∧ db_employees (db_after (serve (put_employees_eid env req) d)) = l1 ++ e' :: l2
       ∧ _id e' = _id e
       ∧ ∀ k v, req_body req !! k = Some v →
                fields e' !! k = Some (stored_for env k v))
  ∧ (∀ req', req_params req' !! "eid" = req_params req !! "eid" →
             (∀ k, k ∈ employee_fields → req_body req' !! k = req_body req !! k) →
             validationResult (validateObjectId ++ validateEmployeeUpdate) req' = []).
Proof.
  intros Hnd He Hoid Hvalid Htop.
  destruct (split_at_record _ _ Hnd He) as (l1 & l2 & Hsplit & Hl1 & _).
  split_and!.
  - by rewrite (put_existing env req d e l1 l2 Hvalid Hoid Hsplit Hl1 Htop).
  - rewrite (put_existing env req d e l1 l2 Hvalid Hoid Hsplit Hl1 Htop). simpl.
    exists l1, l2, (updated env req e). split_and!; try done.
    intros k v Hk. unfold updated; simpl.
    pose proof (updateData_stored_for env _ _ _ Hk) as Hu.
    by rewrite (lookup_union_l' _ _ _ (mk_is_Some _ _ Hu)).
  - intros req' Hp Hb. by rewrite (update_validation_reads_declared req req' Hp Hb).
Qed.

(** C8. The update route makes no conflict check: for two records with
    different identifiers, the update that sets the email of the first to the
    email of the second is answered 200, and afterwards both records carry
    that email, so no two records sharing an email does not survive the
    update.  The second record's email is one the email validator accepts,
    as creation guarantees. *)
Theorem update_email_unchecked (env : Env) (d : Db) (e1 e2 : Doc) (v : Value) :
  NoDup (map _id (db_employees d)) →
  e1 ∈ db_employees d → e2 ∈ db_employees d → _id e1 ≠ _id e2 →
  fields e2 !! "email" = Some v →
  isEmail (Some v) = true →
  reads_back (_id e1) →
  let o := serve (put_employees_eid env
                    (update_request (toString (_id e1)) {["email" := v]})) d in
  response o = MkResponse 200 (Message "Employee details updated successfully.")
  ∧ ops o = [OpFindOne employees; OpUpdateOne employees]
  ∧ (∃ e1', e1' ∈ db_employees (db_after o)
            ∧ _id e1' = _id e1 ∧ fields e1' !! "email" = Some v)
  ∧ e2 ∈ db_employees (db_after o)
  ∧ ¬ unique_emails (db_employees (db_after o)).
Proof.
  intros Hnd He1 He2 Hne Hmail Hok [Hid Hoid] o. subst o.
  set (req := update_request (toString (_id e1)) {["email" := v]}).
  destruct (split_at_record _ _ Hnd He1) as (l1 & l2 & Hsplit & Hl1 & _).
  assert (Hvalid : validationResult (validateObjectId ++ validateEmployeeUpdate) req = []).
  { apply validationResult_nil. unfold validateObjectId, validateEmployeeUpdate. simpl app.
    repeat (apply Forall_cons; split); [.. | constructor].
    all: unfold violated, field_value; simpl.
    - by rewrite lookup_singleton_eq, Hid.
    - by rewrite lookup_singleton_ne.
    - by rewrite lookup_singleton_ne.
    - by rewrite lookup_singleton_eq, Hok.
    - by rewrite lookup_singleton_ne.
    - by rewrite lookup_singleton_ne.
    - by rewrite lookup_singleton_ne.
    - by rewrite lookup_singleton_ne. }
  assert (Hoid' : new_ObjectId (req_params req !! "eid") = Some (_id e1)).
  { simpl. by rewrite lookup_singleton_eq. }
  assert (Htop : ∀ k, is_Some (req_body req !! k) → top_level_field k = true).
  { intros k [x Hk]. simpl in Hk. apply lookup_singleton_Some in Hk as [<- _]. reflexivity. }
  rewrite (put_existing env req d e1 l1 l2 Hvalid Hoid' Hsplit Hl1 Htop). simpl.
  assert (Hfield : fields (updated env req e1) !! "email" = Some v).
  { unfold updated; simpl.
    assert (Hu : updateData (VDate (clock env 0)) {["email" := v]} !! "email" = Some v).
    { rewrite updateData_other by done. apply lookup_singleton_eq. }
    by rewrite (lookup_union_l' _ _ _ (mk_is_Some _ _ Hu)). }
  assert (Hin1 : updated env req e1 ∈ l1 ++ updated env req e1 :: l2).
  { apply elem_of_app. right. apply list_elem_of_here. }
  assert (Hin2 : e2 ∈ l1 ++ updated env req e1 :: l2).
  { rewrite Hsplit in He2. apply elem_of_app in He2 as [? | He2];
      [apply elem_of_app; by left |].
    apply elem_of_cons in He2 as [-> | He2]; [done |].
    apply elem_of_app. right. by apply list_elem_of_further. }
  split_and!; try done.
  - by exists (updated env req e1).
  - intros Huniq. apply Hne.
    apply (Huniq (updated env req e1) e2 Hin1 Hin2); [by rewrite Hfield |].
    by rewrite Hfield, Hmail.
Qed.

End Update.

(** A property of the keys of a map that is written out is checked key by
    key. *)
Lemma keys_listed (b : gmap string Value) (P : string → Prop) :
  Forall P (map fst (map_to_list b)) → ∀ k, is_Some (b !! k) → P k.
Proof.
  intros Hall k [v Hk]. rewrite Forall_forall in Hall. apply Hall.
  apply list_elem_of_fmap. exists (k, v). split; [done |].
  by apply elem_of_map_to_list.
Qed.

Ltac by_keys :=
  apply keys_listed;
  match goal with
  | |- Forall _ ?l => let l' := eval vm_compute in l in change l with l'
  end;
  repeat (apply Forall_cons; split); [.. | by apply Forall_nil].

Ltac decided := apply (bool_decide_unpack _); vm_compute; exact I.

(** An update of [position] and [salary] only. *)
Lemma partial_update_frame_witness :
  let req := update_request "64b7f0c2a1d3e4f5a6b7c8a1"
               {["position" := VStr "Lead"; "salary" := VStr "80000"]} in
  let o := serve (@put_employees_eid Reference.library Sample.env req) Sample.db in
  status (response o) = 200
  ∧ ∃ l1 l2 e',
      db_employees Sample.db = l1 ++ Sample.ann :: l2
      ∧ db_employees (db_after o) = l1 ++ e' :: l2
      ∧ db_users (db_after o) = db_users Sample.db
      ∧ _id e' = _id Sample.ann
      ∧ (∀ k, req_body req !! k = None → k ≠ "updated_at" →
              fields e' !! k = fields Sample.ann !! k)
      ∧ (∀ k, fields e' !! k ≠ fields Sample.ann !! k →
              is_Some (req_body req !! k) ∨ k = "updated_at")
      ∧ fields e' !! "updated_at" = Some (VDate (clock Sample.env 0)).
Proof.
  intros req o.
  assert (H200 : status (response o) = 200) by reflexivity.
  split; [exact H200 |].
  apply (@partial_update_frame Reference.library Sample.env req Sample.db Sample.ann).
  - decided.
  - simpl. listed.
  - reflexivity.
  - by_keys; unfold employee_fields; listed.
  - exact H200.
Defined.

(** An update that carries [created_at] and a key of its own. *)
Lemma body_keys_merged_witness :
  let req := update_request "64b7f0c2a1d3e4f5a6b7c8a1"
               {["created_at" := VStr "never"; "nickname" := VStr "Annie";
                 "salary" := VStr "80000"]} in
  let o := serve (@put_employees_eid Reference.library Sample.env req) Sample.db in
  status (response o) = 200
  ∧ ∃ l1 l2 e',
      db_employees Sample.db = l1 ++ Sample.ann :: l2
      ∧ db_employees (db_after o) = l1 ++ e' :: l2
      ∧ _id e' = _id Sample.ann
      ∧ ∀ k v, req_body req !! k = Some v →
               fields e' !! k = Some (@stored_for Reference.library Sample.env k v).
Proof.
  intros req o.
  destruct (@body_keys_merged Reference.library Sample.env req Sample.db Sample.ann)
    as (H200 & Hmerge & _).
  - decided.
  - simpl. listed.
  - reflexivity.
  - reflexivity.
  - by_keys; reflexivity.
  - split; [exact H200 | exact Hmerge].
Defined.

(** Setting the email of one sample employee to the email of the other. *)
Lemma update_email_unchecked_witness :
  let o := serve (@put_employees_eid Reference.library Sample.env
                    (update_request (toString (_id Sample.ann))
                       {["email" := VStr "bob@example.com"]})) Sample.db in
  unique_emails (db_employees Sample.db)
  ∧ status (response o) = 200
  ∧ ¬ unique_emails (db_employees (db_after o)).
Proof.
  intros o.
  assert (Hbefore : unique_emails (db_employees Sample.db)).
  { intros a b Ha Hb _ Hab. simpl in Ha, Hb.
    each_listed Ha; each_listed Hb; try reflexivity; vm_compute in Hab; discriminate. }
  split; [exact Hbefore | clear Hbefore].
  split; [by vm_compute |].
  apply (@update_email_unchecked Reference.library Sample.env Sample.db
           Sample.ann Sample.bob (VStr "bob@example.com")).
  - decided.
  - simpl. listed.
  - simpl. listed.
  - discriminate.
  - reflexivity.
  - reflexivity.
  - split; reflexivity.
Defined.

(** C10, as stated, fails, on two requests that pass validation on an
    existing record.  The first carries [updated_at]: it is answered 200, but
    the value supplied is not written, the record carries the server's time.
    The second carries [_id] next to a new key: the driver refuses the
    update, the answer is 500 and the store is as before, so the new key is
    not even a field of the record. *)
Lemma body_keys_not_all_written :
  let req1 := update_request "64b7f0c2a1d3e4f5a6b7c8a1"
                {["updated_at" := VStr "1999-01-01"]} in
  let req2 := update_request "64b7f0c2a1d3e4f5a6b7c8a1"
                {["_id" := VStr "64b7f0c2a1d3e4f5a6b7c8ff"; "nickname" := VStr "Annie"]} in
  let o1 := serve (@put_employees_eid Reference.library Sample.env req1) Sample.db in
  let o2 := serve (@put_employees_eid Reference.library Sample.env req2) Sample.db in
  (status (response o1) = 200
   ∧ (∀ e', e' ∈ db_employees (db_after o1) → _id e' = _id Sample.ann →
            fields e' !! "updated_at" = Some (VDate 1700000000000))
   ∧ ¬ every_body_key_written Reference.library)
  ∧ (status (response o2) = 500
     ∧ db_after o2 = Sample.db
     ∧ fields Sample.ann !! "nickname" = None
     ∧ ¬ every_body_key_present Reference.library).
Proof.
  intros req1 req2 o1 o2. split.
  - assert (Hafter : ∀ e', e' ∈ db_employees (db_after o1) → _id e' = _id Sample.ann →
                           fields e' !! "updated_at" = Some (VDate 1700000000000)).
    { intros e' He' Hid.
      assert (Hl : db_employees (db_after o1)
                   = [@updated Reference.library Sample.env req1 Sample.ann; Sample.bob])
        by (by vm_compute).
      rewrite Hl in He'. clear Hl.
      apply elem_of_cons in He' as [-> | He']; [by vm_compute |].
      apply list_elem_of_singleton in He' as ->. vm_compute in Hid. discriminate. }
    split; [by vm_compute |]. split; [exact Hafter |].
    intros Hall.
    destruct (Hall Sample.env req1 Sample.db Sample.ann "updated_at" (VStr "1999-01-01"))
      as (e' & He' & Hid & Hw).
    + decided.
    + simpl. listed.
    + reflexivity.
    + by vm_compute.
    + reflexivity.
    + specialize (Hafter e' He' Hid). clear He' Hall.
      destruct Hw as [Hw | [[Hk _] | [Hk _]]]; [| discriminate Hk | discriminate Hk].
      rewrite Hafter in Hw. discriminate Hw.
  - assert (Hsame : db_after o2 = Sample.db) by (by vm_compute).
    split; [by vm_compute |]. split; [exact Hsame |]. split; [by vm_compute |].
    intros Hall.
    destruct (Hall Sample.env req2 Sample.db Sample.ann "nickname" (VStr "Annie"))
      as (e' & He' & Hid & Hw).
    + decided.
    + simpl. listed.
    + reflexivity.
    + by vm_compute.
    + reflexivity.
    + fold o2 in He'. rewrite Hsame in He'. clear Hsame Hall. simpl in He'.
      apply elem_of_cons in He' as [-> | He'].
      * vm_compute in Hw. destruct Hw as [x Hx]. discriminate Hx.
      * apply list_elem_of_singleton in He' as ->. vm_compute in Hid. discriminate Hid.
Qed.

(** ** Deleting an employee *)

Section Delete.
Context `{Library}.

Lemma delete_existing (req : Request) (d : Db) (e : Doc) (l1 l2 : list Doc) :
  validationResult validateQueryId req = [] →
  new_ObjectId (req_query req !! "eid") = Some (_id e) →
  db_employees d = l1 ++ e :: l2 →
  (∀ x, x ∈ l1 → by_id (_id e) x = false) →
  serve (delete_employees req) d =
    {| response := MkResponse 200 (Message "Employee deleted successfully.");
       db_after := set_collection employees (l1 ++ l2) d;
       ops := [OpFindOne employees; OpDeleteOne employees] |}.
Proof.
  intros Hvalid Hoid Hsplit Hl1.
  unfold delete_employees. rewrite Hvalid. run. rewrite Hoid. simpl.
  rewrite Hsplit, (find_at_record _ _ _ _ Hl1 (by_id_self e)). simpl.
  by rewrite Hsplit, (remove_first_at_record _ _ _ _ Hl1 (by_id_self e)).
Qed.

Lemma delete_absent (req : Request) (d : Db) (oid : ObjectId) :
  validationResult validateQueryId req = [] →
  new_ObjectId (req_query req !! "eid") = Some oid →
  (∀ x, x ∈ db_employees d → by_id oid x = false) →
  serve (delete_employees req) d =
    {| response := MkResponse 404 (Failure "Employee not found");
       db_after := d;
       ops := [OpFindOne employees] |}.
Proof.
  intros Hvalid Hoid Hnone.
  unfold delete_employees. rewrite Hvalid. run. rewrite Hoid. simpl.
  by rewrite (find_none_of _ _ Hnone).
Qed.

(** C9. Deleting a stored record twice by its identifier: the first request
    is answered 200 and removes the record and nothing else, the second is
    answered 404 and leaves the store as the first left it.  Identifiers are
    pairwise distinct in the collection, and the library reads the record's
    identifier back from its string form. *)
Theorem delete_twice (d : Db) (e : Doc) :
  NoDup (map _id (db_employees d)) →
  e ∈ db_employees d →
  reads_back (_id e) →
  let req := delete_request (toString (_id e)) in
  let first := serve (delete_employees req) d in
  let second := serve (delete_employees req) (db_after first) in
  response first = MkResponse 200 (Message "Employee deleted successfully.")
  ∧ (∀ x, x ∈ db_employees (db_after first) ↔ x ∈ db_employees d ∧ x ≠ e)
  ∧ db_users (db_after first) = db_users d
  ∧ response second = MkResponse 404 (Failure "Employee not found")
  ∧ db_after second = db_after first.
Proof.
  intros Hnd He [Hid Hoid] req first second.
  destruct (split_at_record _ _ Hnd He) as (l1 & l2 & Hsplit & Hl1 & Hl2).
  assert (Hvalid : validationResult validateQueryId req = []).
  { apply validationResult_nil. unfold validateQueryId.
    apply Forall_cons; split; [| constructor].
    unfold violated, field_value; simpl.
    by rewrite lookup_singleton_eq, Hid. }
  assert (Hoid' : new_ObjectId (req_query req !! "eid") = Some (_id e)).
  { simpl. by rewrite lookup_singleton_eq. }
  assert (Hfirst : first =
            {| response := MkResponse 200 (Message "Employee deleted successfully.");
               db_after := set_collection employees (l1 ++ l2) d;
               ops := [OpFindOne employees; OpDeleteOne employees] |}).
  { subst first. by apply (delete_existing req d e l1 l2). }
  assert (Hgone : ∀ x, x ∈ l1 ++ l2 → by_id (_id e) x = false).
  { intros x [Hx | Hx]%elem_of_app; [by apply Hl1 | by apply Hl2]. }
  assert (Hsecond : second =
            {| response := MkResponse 404 (Failure "Employee not found");
               db_after := db_after first;
               ops := [OpFindOne employees] |}).
  { subst second. apply (delete_absent req _ (_id e) Hvalid Hoid').
    by rewrite Hfirst. }
  rewrite Hsecond. rewrite Hfirst. simpl. split_and!; try done.
  intros x. rewrite Hsplit, !elem_of_app, elem_of_cons. split.
  - intros Hx. split; [tauto |]. intros ->.
    assert (by_id (_id e) e = false) as Hf by (apply Hgone, elem_of_app; tauto).
    by rewrite by_id_self in Hf.
  - intros [[? | [? | ?]] Hne]; tauto.
Qed.

End Delete.

(** Deleting a sample employee twice. *)
Lemma delete_twice_witness :
  let req := delete_request (toString (_id Sample.bob)) in
  let first := serve (@delete_employees Reference.library req) Sample.db in
  let second := serve (@delete_employees Reference.library req) (db_after first) in
  status (response first) = 200
  ∧ db_employees (db_after first) = [Sample.ann]
  ∧ status (response second) = 404.
Proof.
  intros req first second.
  assert (Hl : db_employees (db_after first) = [Sample.ann]) by (by vm_compute).
  destruct (@delete_twice Reference.library Sample.db Sample.bob)
    as (H1 & _ & _ & H2 & _).
  - decided.
  - simpl. listed.
  - split; reflexivity.
  - fold req first in H1, H2. fold second in H2.
    by rewrite H1, H2.
Defined.

(** ** Logging in *)

Section Login.
Context `{Library}.

(** A login that passes validation is decided by the lookup and by bcrypt. *)
Lemma login_validated (req : Request) (d : Db) :
  validationResult validateLogin req = [] →
  serve (post_login req) d =
    {| response :=
         match List.find (email_or_username (req_body req !! "email")) (db_users d) with
         | None => unauthorized
         | Some user =>
             match bcrypt_compare (req_body req !! "password") (fields user !! "password") with
             | Some true =>
                 MkResponse 200 (LoggedIn "Login successful." "Optional implementation")
             | Some false => unauthorized
             | None => MkResponse 500 (Failure "Internal server error")
             end
         end;
       db_after := d;
       ops := [OpFindOne users] |}.
Proof.
  intros Hvalid. unfold post_login. rewrite Hvalid. run.
  destruct (List.find _ (db_users d)) as [user|]; [| done]. simpl.
  by destruct (bcrypt_compare _ _) as [[|]|].
Qed.

(** Where bcrypt answers, the two failed logins are alike: of two logins
    that pass validation, one with an email that matches no stored user and
    one with an email that matches a stored user and a credential bcrypt
    reports as not verifying against the hash of any user it matches, both
    are answered 401 with the same body. *)
Theorem login_failures_indistinguishable (d : Db) (req1 req2 : Request) :
  validationResult validateLogin req1 = [] →
  validationResult validateLogin req2 = [] →
  (∀ u, u ∈ db_users d → email_or_username (req_body req1 !! "email") u = false) →
  (∃ u, u ∈ db_users d ∧ email_or_username (req_body req2 !! "email") u = true) →
  (∀ u, u ∈ db_users d →
        email_or_username (req_body req2 !! "email") u = true →
        bcrypt_compare (req_body req2 !! "password") (fields u !! "password")
        = Some false) →
  response (serve (post_login req1) d) = unauthorized
  ∧ response (serve (post_login req2) d) = unauthorized
  ∧ response (serve (post_login req1) d) = response (serve (post_login req2) d).
Proof.
  intros Hv1 Hv2 Hnone (u & Hu & Hmatch) Hwrong.
  rewrite (login_validated req1 d Hv1), (login_validated req2 d Hv2). simpl.
  rewrite (find_none_of _ _ Hnone).
  destruct (List.find _ (db_users d)) as [user|] eqn:Hfind.
  - apply find_some in Hfind as [Hin Hm]. apply list_elem_of_In in Hin.
    by rewrite (Hwrong user Hin Hm).
  - done.
Qed.

Lemma swap_login_fields_email (u : Doc) :
  fields (swap_login_fields u) !! "email" = fields u !! "username".
Proof.
  unfold swap_login_fields; simpl.
  destruct (fields u !! "email"), (fields u !! "username") eqn:Hn; by simplify_map_eq.
Qed.

Lemma swap_login_fields_username (u : Doc) :
  fields (swap_login_fields u) !! "username" = fields u !! "email".
Proof.
  unfold swap_login_fields; simpl.
  destruct (fields u !! "email") eqn:He, (fields u !! "username"); by simplify_map_eq.
Qed.

Lemma swap_login_fields_password (u : Doc) :
  fields (swap_login_fields u) !! "password" = fields u !! "password".
Proof.
  unfold swap_login_fields; simpl.
  destruct (fields u !! "email"), (fields u !! "username"); by simplify_map_eq.
Qed.

Lemma email_or_username_swap (q : JsVal) (u : Doc) :
  email_or_username q (swap_login_fields u) = email_or_username q u.
Proof.
  unfold email_or_username.
  rewrite swap_login_fields_email, swap_login_fields_username. apply orb_comm.
Qed.

Lemma find_swapped (q : JsVal) (l : list Doc) :
  List.find (email_or_username q) (map swap_login_fields l)
  = swap_login_fields <$> List.find (email_or_username q) l.
Proof.
  induction l as [|u l IH]; [done |]. simpl.
  rewrite email_or_username_swap. by destruct (email_or_username q u).
Qed.

(** C7. A login that passes validation looks the supplied email field up
    among the stored emails and the stored usernames alike, with one
    [findOne] on the users: it is answered 200 exactly when the first stored
    user whose email or whose username matches the field has a hash the
    credential verifies against, and 401 when no stored user matches either
    way.  The two fields play the same part: exchanging the stored email and
    username of every user changes no response. *)
Theorem login_matches_email_or_username (d : Db) (req : Request) :
  validationResult validateLogin req = [] →
  (response (serve (post_login req) d)
     = MkResponse 200 (LoggedIn "Login successful." "Optional implementation")
   ↔ ∃ earlier u later,
       db_users d = earlier ++ u :: later
       ∧ (∀ x, x ∈ earlier →
               eq_filter (req_body req !! "email") (fields x !! "email") = false
               ∧ eq_filter (req_body req !! "email") (fields x !! "username") = false)
       ∧ (eq_filter (req_body req !! "email") (fields u !! "email") = true
          ∨ eq_filter (req_body req !! "email") (fields u !! "username") = true)
       ∧ bcrypt_compare (req_body req !! "password") (fields u !! "password")
         = Some true)
  ∧ ((∀ x, x ∈ db_users d →
           eq_filter (req_body req !! "email") (fields x !! "email") = false
           ∧ eq_filter (req_body req !! "email") (fields x !! "username") = false) →
     response (serve (post_login req) d) = unauthorized)
  ∧ ops (serve (post_login req) d) = [OpFindOne users]
  ∧ response (serve (post_login req)
                (set_collection users (map swap_login_fields (db_users d)) d))
    = response (serve (post_login req) d).
Proof.
  intros Hvalid. rewrite !(login_validated req _ Hvalid).
  cbn [response ops db_users set_collection].
  split_and!.
  - split.
    + destruct (List.find _ (db_users d)) as [u|] eqn:Hfind; [| discriminate].
      destruct (bcrypt_compare _ _) as [[|]|] eqn:Hverify; try discriminate.
      intros _. destruct (find_split _ _ _ Hfind) as (earlier & later & Hsplit & Hearlier & Hu).
      exists earlier, u, later. split; [done |]. split; [| split; [| done]].
      * intros x Hx. apply orb_false_elim. exact (Hearlier x Hx).
      * unfold email_or_username in Hu. by apply orb_true_iff in Hu.
    + intros (earlier & u & later & Hsplit & Hearlier & Hmatch & Hverify).
      rewrite Hsplit, (find_at_record (email_or_username (req_body req !! "email"))
                         earlier later u).
      * by rewrite Hverify.
      * intros x Hx. unfold email_or_username.
        by destruct (Hearlier x Hx) as [-> ->].
      * unfold email_or_username. destruct Hmatch as [-> | ->]; [done | apply orb_true_r].
  - intros Hnone. rewrite find_none_of; [done |].
    intros x Hx. unfold email_or_username. by destruct (Hnone x Hx) as [-> ->].
  - done.
  - rewrite find_swapped.
    destruct (List.find _ (db_users d)) as [u|]; [| done].
    change (swap_login_fields <$> Some u) with (Some (swap_login_fields u)).
    cbv beta iota. by rewrite swap_login_fields_password.
Qed.

(** C4 fails on the code.  Of two logins that pass validation, one whose
    email matches no stored user is answered 401, while one whose email
    matches a stored user and whose credential makes [bcrypt.compare] throw
    (a credential that is not a string) is answered 500: the two answers
    differ, and tell a stored email from an unknown one. *)
Theorem login_failure_told_apart (d : Db) (req1 req2 : Request) :
  validationResult validateLogin req1 = [] →
  validationResult validateLogin req2 = [] →
  (∀ u, u ∈ db_users d → email_or_username (req_body req1 !! "email") u = false) →
  (∃ u, u ∈ db_users d ∧ email_or_username (req_body req2 !! "email") u = true) →
  (∀ u, u ∈ db_users d →
        email_or_username (req_body req2 !! "email") u = true →
        bcrypt_compare (req_body req2 !! "password") (fields u !! "password") = None) →
  response (serve (post_login req1) d) = unauthorized
  ∧ response (serve (post_login req2) d)
    = MkResponse 500 (Failure "Internal server error")
  ∧ response (serve (post_login req1) d) ≠ response (serve (post_login req2) d).
Proof.
  intros Hv1 Hv2 Hnone (u & Hu & Hmatch) Hthrows.
  rewrite (login_validated req1 d Hv1), (login_validated req2 d Hv2). simpl.
  rewrite (find_none_of _ _ Hnone).
  destruct (List.find _ (db_users d)) as [user|] eqn:Hfind.
  - apply find_some in Hfind as [Hin Hm]. apply list_elem_of_In in Hin.
    by rewrite (Hthrows user Hin Hm).
  - apply list_elem_of_In in Hu. pose proof (find_none _ _ Hfind u Hu) as Hno.
    simpl in Hno. congruence.
Qed.

End Login.

(** An unknown email and a wrong credential, both well-formed. *)
Lemma login_failures_indistinguishable_witness :
  let req1 := login_request {["email" := VStr "ghost@example.com";
                              "password" := VStr "opensesame"]} in
  let req2 := login_request {["email" := VStr "ann@example.com";
                              "password" := VStr "guess"]} in
  response (serve (@post_login Reference.library req1) Sample.db) = unauthorized
  ∧ response (serve (@post_login Reference.library req2) Sample.db) = unauthorized
  ∧ response (serve (@post_login Reference.library req1) Sample.db)
    = response (serve (@post_login Reference.library req2) Sample.db).
Proof.
  intros req1 req2.
  apply (@login_failures_indistinguishable Reference.library Sample.db req1 req2).
  - by vm_compute.
  - by vm_compute.
  - simpl. intros u Hu. each_listed Hu; by vm_compute.
  - exists Sample.account_1. split; [simpl; listed | by vm_compute].
  - simpl. intros u Hu. each_listed Hu; by vm_compute.
Defined.

(** A login that names the second account by its username. *)
Lemma login_matches_email_or_username_witness :
  let req := login_request {["email" := VStr "ops@example.com";
                             "password" := VStr "letmein99"]} in
  fields Sample.account_2 !! "username" = Some (VStr "ops@example.com")
  ∧ fields Sample.account_2 !! "email" = Some (VStr "bob@example.com")
  ∧ response (serve (@post_login Reference.library req) Sample.db)
    = MkResponse 200 (LoggedIn "Login successful." "Optional implementation").
Proof.
  intros req. split; [reflexivity |]. split; [reflexivity |].
  apply (proj1 (@login_matches_email_or_username Reference.library Sample.db req
                  ltac:(by vm_compute))).
  exists [Sample.account_1], Sample.account_2, []. split; [reflexivity |].
  split; [| split; [right | ]; by vm_compute].
  intros x Hx. each_listed Hx. by vm_compute.
Defined.

(** Two logins with the JSON number 123456 as password: one for an unknown
    email, one for the email of the first sample account. *)
Lemma login_failure_told_apart_witness :
  let unknown := login_request {["email" := VStr "ghost@example.com";
                                 "password" := VNum 123456]} in
  let stored := login_request {["email" := VStr "ann@example.com";
                                "password" := VNum 123456]} in
  response (serve (@post_login Reference.library unknown) Sample.db) = unauthorized
  ∧ response (serve (@post_login Reference.library stored) Sample.db)
    = MkResponse 500 (Failure "Internal server error")
  ∧ response (serve (@post_login Reference.library unknown) Sample.db)
    ≠ response (serve (@post_login Reference.library stored) Sample.db).
Proof.
  intros unknown stored.
  apply (@login_failure_told_apart Reference.library Sample.db unknown stored).
  - by vm_compute.
  - by vm_compute.
  - simpl. intros u Hu. each_listed Hu; by vm_compute.
  - exists Sample.account_1. split; [simpl; listed | by vm_compute].
  - simpl. intros u Hu. each_listed Hu; by vm_compute.
Defined.

(** ** What the routes maintain

    The properties above assume that identifiers are pairwise distinct in
    the employee collection and, for C8, that a stored email is one the email
    validator accepts.  Creation, deletion and the update of top-level
    fields keep both. *)

Section Maintained.
Context `{Library}.

Lemma existsb_id_false (oid : ObjectId) (l : list Doc) :
  existsb (λ d, bool_decide (_id d = oid)) l = false → oid ∉ map _id l.
Proof.
  induction l as [|a l IH]; simpl; [intros _; apply not_elem_of_nil |].
  intros [Ha Hl]%orb_false_elim. apply bool_decide_eq_false in Ha.
  intros [-> | Hin]%elem_of_cons; [done | by apply IH].
Qed.

Lemma remove_first_ids (f : Doc → bool) (l : list Doc) :
  NoDup (map _id l) → NoDup (map _id (remove_first f l)).
Proof.
  induction l as [|a l IH]; [done |]. simpl.
  intros [Ha Hl]%NoDup_cons. destruct (f a); [done |]. simpl.
  apply NoDup_cons. split; [| by apply IH].
  intros Hin. apply Ha. clear -Hin.
  induction l as [|b l IH]; [done |]. simpl in *.
  destruct (f b); [by apply list_elem_of_further |].
  apply elem_of_cons in Hin as [-> | Hin];
    [apply list_elem_of_here | apply list_elem_of_further; by apply IH].
Qed.

(** A create answered 201 appends one record under the generated
    identifier; the email it stores is the one the validator accepted. *)
Lemma created_record (env : Env) (req : Request) (d : Db) :
  status (response (serve (post_employees env req) d)) = 201 →
  isEmail (req_body req !! "email") = true
  ∧ (generated_id env ∉ map _id (db_employees d))
  ∧ ∃ e, db_employees (db_after (serve (post_employees env req) d))
         = db_employees d ++ [e]
         ∧ _id e = generated_id env
         ∧ fields e !! "email" = Some (stored (req_body req !! "email")).
Proof.
  unfold post_employees.
  destruct (validationResult validateEmployee req) as [|m rest] eqn:Hvalid;
    [| run; discriminate].
  apply validationResult_nil in Hvalid. unfold validateEmployee in Hvalid.
  apply Forall_cons in Hvalid as [_ Hvalid]. apply Forall_cons in Hvalid as [_ Hvalid].
  apply Forall_cons in Hvalid as [Hmail _].
  assert (Hok : isEmail (req_body req !! "email") = true).
  { unfold violated, field_value in Hmail; simpl in Hmail.
    destruct (req_body req !! "email"); by apply negb_false_iff in Hmail. }
  run. destruct (List.find _ (db_employees d)); [simpl; discriminate |]. simpl.
  destruct (existsb _ (db_employees d)) eqn:Hfresh; [simpl; discriminate |]. simpl.
  intros _. split; [exact Hok |]. split; [by apply existsb_id_false |].
  eexists. split; [reflexivity |]. split; [reflexivity |]. simpl.
  by rewrite lookup_insert_ne, lookup_insert_ne, lookup_insert_eq.
Qed.

Lemma create_keeps_ids_distinct (env : Env) (req : Request) (d : Db) :
  NoDup (map _id (db_employees d)) →
  NoDup (map _id (db_employees (db_after (serve (post_employees env req) d)))).
Proof.
  intros Hnd. unfold post_employees.
  destruct (validationResult validateEmployee req) as [|m rest]; [| by run].
  run. destruct (List.find _ (db_employees d)); [done |]. simpl.
  destruct (existsb _ (db_employees d)) eqn:Hfresh; [done |]. simpl.
  rewrite map_app. simpl. apply NoDup_app. split; [done |]. split.
  - intros x Hx [-> | Hin]%elem_of_cons; [| by apply elem_of_nil in Hin].
    by apply (existsb_id_false _ _ Hfresh).
  - apply NoDup_singleton.
Qed.

Lemma delete_keeps_ids_distinct (req : Request) (d : Db) :
  NoDup (map _id (db_employees d)) →
  NoDup (map _id (db_employees (db_after (serve (delete_employees req) d)))).
Proof.
  intros Hnd. unfold delete_employees.
  destruct (validationResult validateQueryId req) as [|m rest]; [| by run].
  run. destruct (new_ObjectId _); [| done]. simpl.
  destruct (List.find _ (db_employees d)); [| done]. simpl.
  by apply remove_first_ids.
Qed.

(** What a create can do to the store: nothing, or the record of a 201. *)
Lemma create_outcome (env : Env) (req : Request) (d : Db) :
  db_after (serve (post_employees env req) d) = d
  ∨ status (response (serve (post_employees env req) d)) = 201.
Proof.
  unfold post_employees.
  destruct (validationResult validateEmployee req) as [|m rest]; [| left; by run].
  run. destruct (List.find _ (db_employees d)); [left; by destruct d |]. simpl.
  destruct (existsb _ (db_employees d)); [left; by destruct d | by right].
Qed.

Lemma create_keeps_emails_valid (env : Env) (req : Request) (d : Db) :
  isEmail None = false →
  emails_valid (db_employees d) →
  emails_valid (db_employees (db_after (serve (post_employees env req) d))).
Proof.
  intros Hundef Hvalid.
  destruct (create_outcome env req d) as [-> | H201]; [done |].
  destruct (created_record env req d H201) as (Hok & _ & e & -> & _ & Hmail).
  intros x [Hx | Hx]%elem_of_app; [by apply Hvalid |].
  apply list_elem_of_singleton in Hx as ->.
  destruct (req_body req !! "email") as [v|]; [| congruence].
  by exists v.
Qed.

(** What an update of top-level fields can do to the store: nothing, or the
    replacement of the record found by its merge with the update document,
    after validation. *)
Lemma update_outcome (env : Env) (req : Request) (d : Db) :
  (∀ k, is_Some (req_body req !! k) → top_level_field k = true) →
  db_after (serve (put_employees_eid env req) d) = d
  ∨ ∃ l1 l2 e,
      validationResult (validateObjectId ++ validateEmployeeUpdate) req = []
      ∧ db_employees d = l1 ++ e :: l2
      ∧ db_after (serve (put_employees_eid env req) d)
        = set_collection employees (l1 ++ updated env req e :: l2) d.
Proof.
  intros Htop.
  destruct (validationResult (validateObjectId ++ validateEmployeeUpdate) req)
    as [|m rest] eqn:Hvalid.
  2: { left. unfold put_employees_eid. rewrite Hvalid. by run. }
  destruct (new_ObjectId (req_params req !! "eid")) as [oid|] eqn:Hoid.
  2: { left. unfold put_employees_eid. rewrite Hvalid. run. by rewrite Hoid. }
  destruct (List.find (by_id oid) (db_employees d)) as [e|] eqn:Hfind.
  2: { left. unfold put_employees_eid. rewrite Hvalid. run. rewrite Hoid. simpl.
       by rewrite Hfind. }
  destruct (find_split _ _ _ Hfind) as (l1 & l2 & Hsplit & Hl1 & He).
  apply bool_decide_eq_true in He. subst oid.
  right. exists l1, l2, e. split; [done |]. split; [done |].
  by rewrite (put_existing env req d e l1 l2 Hvalid Hoid Hsplit Hl1 Htop).
Qed.

Lemma update_keeps_ids_distinct (env : Env) (req : Request) (d : Db) :
  (∀ k, is_Some (req_body req !! k) → top_level_field k = true) →
  NoDup (map _id (db_employees d)) →
  NoDup (map _id (db_employees (db_after (serve (put_employees_eid env req) d)))).
Proof.
  intros Htop Hnd.
  destruct (update_outcome env req d Htop) as [-> | (l1 & l2 & e & _ & Hsplit & ->)];
    [done |].
  simpl. rewrite Hsplit in Hnd. by rewrite map_app in *.
Qed.

Lemma update_keeps_emails_valid (env : Env) (req : Request) (d : Db) :
  (∀ k, is_Some (req_body req !! k) → top_level_field k = true) →
  emails_valid (db_employees d) →
  emails_valid (db_employees (db_after (serve (put_employees_eid env req) d))).
Proof.
  intros Htop Hvalid.
  destruct (update_outcome env req d Htop)
    as [-> | (l1 & l2 & e & Hpass & Hsplit & ->)]; [done |].
  simpl. rewrite Hsplit in Hvalid.
  intros x [Hx | [-> | Hx]%elem_of_cons]%elem_of_app.
  - apply Hvalid, elem_of_app. by left.
  - unfold updated; simpl.
    destruct (req_body req !! "email") as [v|] eqn:Hmail.
    + exists v.
      assert (Hu : updateData (VDate (clock env 0)) (req_body req) !! "email" = Some v)
        by (by rewrite updateData_other).
      rewrite (lookup_union_l' _ _ _ (mk_is_Some _ _ Hu)). split; [done |].
      apply validationResult_nil in Hpass.
      unfold validateObjectId, validateEmployeeUpdate in Hpass. simpl app in Hpass.
      do 3 apply Forall_cons in Hpass as [_ Hpass]. apply Forall_cons in Hpass as [Hpass _].
      unfold violated, field_value in Hpass; simpl in Hpass. rewrite Hmail in Hpass.
      by apply negb_false_iff in Hpass.
    + rewrite lookup_union_r by (by rewrite updateData_other).
      apply Hvalid, elem_of_app. right. apply list_elem_of_here.
  - apply Hvalid, elem_of_app. right. by apply list_elem_of_further.
Qed.

Lemma delete_keeps_emails_valid (req : Request) (d : Db) :
  emails_valid (db_employees d) →
  emails_valid (db_employees (db_after (serve (delete_employees req) d))).
Proof.
  intros Hvalid. unfold delete_employees.
  destruct (validationResult validateQueryId req) as [|m rest]; [| by run].
  run. destruct (new_ObjectId _); [| done]. simpl.
  destruct (List.find _ (db_employees d)); [| done]. simpl.
  intros x Hx. apply Hvalid. clear -Hx.
  induction (db_employees d) as [|a l IH]; [done |]. simpl in Hx.
  destruct (by_id o a); [by apply list_elem_of_further |].
  apply elem_of_cons in Hx as [-> | Hx];
    [apply list_elem_of_here | apply list_elem_of_further; by apply IH].
Qed.

(** Listing an empty collection: 200 and an empty array. *)
Lemma list_of_none (req : Request) (us : list Doc) :
  serve (get_employees req) {| db_users := us; db_employees := [] |} =
    {| response := MkResponse 200 (EmployeeList []);
       db_after := {| db_users := us; db_employees := [] |};
       ops := [OpFind employees] |}.
Proof. by run. Qed.

End Maintained.

(** ** The two controllers together

    A user who signs up with a username that has the shape of an email can
    log in with it in the email field. *)
Example signup_then_login_by_username :
  let signup := login_request {["username" := VStr "ops@example.com";
                                "email" := VStr "carol@example.com";
                                "password" := VStr "s3cret!"]} in
  let login := login_request {["email" := VStr "ops@example.com";
                               "password" := VStr "s3cret!"]} in
  let registered :=
    serve (@post_signup Reference.library Sample.env signup) (MkDb [] []) in
  status (response registered) = 201
  ∧ response (serve (@post_login Reference.library login) (db_after registered))
    = MkResponse 200 (LoggedIn "Login successful." "Optional implementation").
Proof. by vm_compute. Qed.

(** * Properties of all the routes *)

(** One step through a handler: the next call that decides its course. *)
Ltac route_step :=
  match goal with
  | |- context [new_ObjectId ?v] => destruct (new_ObjectId v) eqn:?
  | |- context [List.find ?f ?l] => destruct (List.find f l) eqn:?
  | |- context [existsb ?f ?l] => destruct (existsb f l) eqn:?
  | |- context [update_first ?f ?g ?l] => destruct (update_first f g l) eqn:?
  | |- context [bcrypt_compare ?a ?b] => destruct (bcrypt_compare a b) as [[|]|] eqn:?
  | |- context [bcrypt_hash ?a ?b] => destruct (bcrypt_hash a b) eqn:?
  end; simpl.

Ltac route_run :=
  simpl handler; simpl chains_of; simpl request_of;
  unfold post_signup, post_login, get_employees, post_employees, get_employees_eid,
    put_employees_eid, delete_employees;
  try match goal with
      | |- context [validationResult ?cs ?r] =>
          destruct (validationResult cs r) as [|? ?] eqn:?
      end;
  run; repeat route_step.

Ltac route_cases c := destruct c; route_run.

Section AllRoutes.
Context `{Library}.

(** X1. A request that fails the validation of its route is answered 400
    with the first message; no database call is made. *)
Theorem validation_failure_untouched (c : Call) (d : Db) (m : string) (rest : list string) :
  validationResult (chains_of c) (request_of c) = m :: rest →
  serve (handler c) d =
    {| response := MkResponse 400 (Failure m); db_after := d; ops := [] |}.
Proof.
  intros Hfail.
  destruct c; cbn [chains_of request_of] in Hfail; simpl handler;
    unfold post_signup, post_login, get_employees, post_employees, get_employees_eid,
      put_employees_eid, delete_employees;
    try rewrite Hfail; by run.
Qed.


(** X3. Login, listing and fetching never write: the database is as before
    and the trace holds reads only. *)
Theorem reading_routes_write_nothing (req : Request) (d : Db) :
  Forall (λ c, db_after (serve (handler c) d) = d
               ∧ forallb is_read (ops (serve (handler c) d)) = true)
    [Login req; ListEmployees req; FetchEmployee req].
Proof.
  repeat (apply Forall_cons; split); [.. | constructor].
  - route_run; by destruct d.
  - route_run; by destruct d.
  - route_run; by destruct d.
Qed.

(** X4. A route never touches the other collection: the employee routes
    leave the users as they are, the user routes the employees. *)
Theorem other_collection_untouched (c : Call) (d : Db) :
  collection (other_collection (collection_of c)) (db_after (serve (handler c) d))
  = collection (other_collection (collection_of c)) d.
Proof. route_cases c; done. Qed.

(** X5. Each route answers with one of the status codes of its row,
    whichever of its driver calls fail: 201, 400 or 500 for signup and
    create, 200, 400, 401 or 500 for login, 200 or 500 for the listing, and
    200, 400, 404 or 500 for fetch, update and delete. *)
Theorem status_of_route (errors : nat → bool) (c : Call) (d : Db) :
  status (response (serve_with errors (handler c) d)) ∈ statuses_of c.
Proof.
  route_cases c;
    repeat match goal with
           | |- context [errors ?n] => destruct (errors n) eqn:?; simpl; repeat route_step
           end;
    listed.
Qed.

(** The listing answers 500 when its [find] meets a driver error; the store
    is as before. *)
Lemma listing_driver_error (errors : nat → bool) (req : Request) (d : Db) :
  errors 0%nat = true →
  serve_with errors (get_employees req) d =
    {| response := MkResponse 500 (Failure "Internal server error");
       db_after := d;
       ops := [OpFind employees] |}.
Proof. intros He. unfold get_employees. run. by rewrite He. Qed.

(** X6. One request makes at most one read of its collection, followed by at
    most one write to it. *)
Theorem trace_of_route (c : Call) (d : Db) :
  ops (serve (handler c) d) ∈ trace_shapes (collection_of c).
Proof. route_cases c; unfold trace_shapes; listed. Qed.

End AllRoutes.

(** A signup without a password, on the sample store. *)
Lemma validation_failure_untouched_witness :
  let c := Signup Sample.env
             (login_request {["username" := VStr "dana"; "email" := VStr "dana@example.com"]}) in
  serve (@handler Reference.library c) Sample.db =
    {| response := MkResponse 400 (Failure "Password must be at least 6 characters");
       db_after := Sample.db;
       ops := [] |}.
Proof.
  intros c.
  by apply (@validation_failure_untouched Reference.library c Sample.db
              "Password must be at least 6 characters" []).
Defined.


(** ** Identifiers stay distinct *)

Section Identifiers.
Context `{Library}.

Lemma update_first_ids (f : Doc → bool) (g : Doc → option Doc) (l l' : list Doc) :
  (∀ e e', g e = Some e' → _id e' = _id e) →
  update_first f g l = Some l' → map _id l' = map _id l.
Proof.
  intros Hg. revert l'. induction l as [|a l IH]; simpl; intros l'.
  - by intros [= <-].
  - destruct (f a).
    + destruct (g a) as [a'|] eqn:Ha; simpl; [| discriminate].
      intros [= <-]. simpl. by rewrite (Hg _ _ Ha).
    + destruct (update_first f g l) as [l''|]; simpl; [| discriminate].
      intros [= <-]. simpl. by rewrite (IH l'').
Qed.

Lemma apply_set_id (upd : gmap string Value) (e e' : Doc) :
  (∀ upd e e', set_paths upd e = Some e' → _id e' = _id e) →
  apply_set upd e = Some e' → _id e' = _id e.
Proof.
  intros Hlaw. unfold apply_set.
  destruct (forallb _ _); [by intros [= <-] |].
  case_bool_decide; [discriminate | apply Hlaw].
Qed.

Lemma insert_keeps_distinct (oid : ObjectId) (f : gmap string Value) (l : list Doc) :
  existsb (λ d, bool_decide (_id d = oid)) l = false →
  NoDup (map _id l) → NoDup (map _id (l ++ [MkDoc oid f])).
Proof.
  intros Hfresh Hnd. rewrite map_app. simpl. apply NoDup_app. split; [done |]. split.
  - intros x Hx [-> | Hin]%elem_of_cons; [| by apply elem_of_nil in Hin].
    by apply (existsb_id_false _ _ Hfresh).
  - apply NoDup_singleton.
Qed.

Lemma call_keeps_ids_distinct (c : Call) (d : Db) :
  (∀ upd e e', set_paths upd e = Some e' → _id e' = _id e) →
  ids_distinct d → ids_distinct (db_after (serve (handler c) d)).
Proof.
  intros Hlaw [Hu He]. unfold ids_distinct.
  route_cases c; try done; simpl.
  - split; [by apply insert_keeps_distinct | done].
  - split; [done | by apply insert_keeps_distinct].
  - split; [done |].
    match goal with
    | Hup : update_first _ _ _ = Some _ |- _ =>
        rewrite (update_first_ids _ _ _ _ (λ e e', apply_set_id _ e e' Hlaw) Hup)
    end. done.
  - split; [done | by apply remove_first_ids].
Qed.

(** X7. Whatever requests are served, in whatever order, the identifiers of
    each collection stay pairwise distinct, provided the driver's [$set]
    never changes an [_id]. *)
Theorem ids_stay_distinct (cs : list Call) (d : Db) :
  (∀ upd e e', set_paths upd e = Some e' → _id e' = _id e) →
  ids_distinct d → ids_distinct (serve_all cs d).
Proof.
  intros Hlaw. revert d. induction cs as [|c cs IH]; intros d Hd; [done |].
  simpl. apply IH. by apply call_keeps_ids_distinct.
Qed.

End Identifiers.

(** Two creates, an update and a delete from the empty database. *)
Lemma ids_stay_distinct_witness :
  let cs := [CreateEmployee Sample.env (create_request round_trip_body);
             CreateEmployee Sample.env (create_request round_trip_body);
             UpdateEmployee Sample.env
               (update_request "64b7f0c2a1d3e4f5a6b7c8d9" {["position" := VStr "Lead"]});
             DeleteEmployee (delete_request "64b7f0c2a1d3e4f5a6b7c8d9")] in
  ids_distinct (@serve_all Reference.library cs (MkDb [] [])).
Proof.
  intros cs. apply (@ids_stay_distinct Reference.library cs).
  - intros upd e e' Hset. discriminate Hset.
  - split; apply NoDup_nil_2.
Defined.

(** ** Reading employees *)

Section Reading.
Context `{Library}.

(** X8. A fetch, update or delete that passes validation and names an
    identifier no record carries is answered 404; the database is as before
    and only the lookup was made. *)
Theorem absent_identifier_not_found (r : ByIdRoute) (env : Env) (req : Request)
    (d : Db) (oid : ObjectId) :
  validationResult (by_id_chains r) req = [] →
  new_ObjectId (identifier r req) = Some oid →
  oid ∉ map _id (db_employees d) →
  serve (by_id_route env r req) d =
    {| response := MkResponse 404 (Failure "Employee not found");
       db_after := d;
       ops := [OpFindOne employees] |}.
Proof.
  intros Hvalid Hoid Habsent.
  destruct r; simpl in Hvalid, Hoid; unfold by_id_route.
  - unfold get_employees_eid. rewrite Hvalid. run. rewrite Hoid. simpl.
    by rewrite (find_by_id_fresh _ _ Habsent).
  - unfold put_employees_eid.
    change (validationResult (validateObjectId ++ validateEmployeeUpdate) req)
      with (validationResult (by_id_chains UpdateById) req).
    simpl by_id_chains. rewrite Hvalid. run. rewrite Hoid. simpl.
    by rewrite (find_by_id_fresh _ _ Habsent).
  - unfold delete_employees. rewrite Hvalid. run. rewrite Hoid. simpl.
    by rewrite (find_by_id_fresh _ _ Habsent).
Qed.

(** X9. Every stored employee appears in the listing, and fetching its
    identifier returns the same projection; neither changes the database. *)
Theorem stored_employee_listed_and_fetched (req : Request) (d : Db) (e : Doc) :
  NoDup (map _id (db_employees d)) →
  e ∈ db_employees d →
  reads_back (_id e) →
  (∃ l, response (serve (get_employees req) d) = MkResponse 200 (EmployeeList l)
        ∧ formatted e ∈ l
        ∧ length l = length (db_employees d))
  ∧ serve (get_employees_eid (fetch_request (toString (_id e)))) d =
      {| response := MkResponse 200 (OneEmployee (formatted e));
         db_after := d;
         ops := [OpFindOne employees] |}.
Proof.
  intros Hnd He [Hid Hoid]. split.
  - exists (map formatted (db_employees d)). split; [by run |]. split.
    + apply list_elem_of_fmap. by exists e.
    + apply length_map.
  - destruct (split_at_record _ _ Hnd He) as (l1 & l2 & Hsplit & Hl1 & _).
    assert (Hvalid : validationResult validateObjectId
                       (fetch_request (toString (_id e))) = []).
    { apply validationResult_nil. unfold validateObjectId.
      apply Forall_cons; split; [| constructor].
      unfold violated, field_value; simpl. by rewrite lookup_singleton_eq, Hid. }
    unfold get_employees_eid. rewrite Hvalid. run.
    rewrite lookup_singleton_eq, Hoid. simpl.
    by rewrite Hsplit, (find_at_record _ _ _ _ Hl1 (by_id_self e)).
Qed.

End Reading.

(** An update of an identifier no sample employee carries. *)
Lemma absent_identifier_not_found_witness :
  serve (@by_id_route Reference.library Sample.env UpdateById
           (update_request "64b7f0c2a1d3e4f5a6b7c8ee" {["position" := VStr "Lead"]}))
    Sample.db =
    {| response := MkResponse 404 (Failure "Employee not found");
       db_after := Sample.db;
       ops := [OpFindOne employees] |}.
Proof.
  apply (@absent_identifier_not_found Reference.library UpdateById Sample.env _ Sample.db
           (MkObjectId "64b7f0c2a1d3e4f5a6b7c8ee")).
  - by vm_compute.
  - reflexivity.
  - simpl. intros Hin. not_listed Hin.
Defined.

(** The second sample employee, listed and fetched. *)
Lemma stored_employee_listed_and_fetched_witness :
  serve (@get_employees_eid Reference.library (fetch_request (toString (_id Sample.bob))))
    Sample.db =
    {| response := MkResponse 200 (OneEmployee (formatted Sample.bob));
       db_after := Sample.db;
       ops := [OpFindOne employees] |}.
Proof.
  refine (proj2 (@stored_employee_listed_and_fetched Reference.library
                   (create_request ∅) Sample.db Sample.bob _ _ _)).
  - decided.
  - simpl. listed.
  - split; reflexivity.
Defined.

(** ** Creating, continued *)

Section CreateMore.
Context `{Library}.

Lemma create_succeeds (env : Env) (req : Request) (d : Db) :
  validationResult validateEmployee req = [] →
  (∀ e, e ∈ db_employees d →
        eq_filter (req_body req !! "email") (fields e !! "email") = false) →
  generated_id env ∉ map _id (db_employees d) →
  serve (post_employees env req) d =
    {| response := MkResponse 201
         (CreatedEmployee "Employee created successfully." (toString (generated_id env)));
       db_after := set_collection employees (db_employees d ++ [new_employee env req]) d;
       ops := [OpFindOne employees; OpInsertOne employees] |}.
Proof.
  intros Hvalid Hnone Hfresh. unfold post_employees. rewrite Hvalid. run.
  rewrite (find_none_of _ _ Hnone). simpl.
  by rewrite (existsb_fresh _ _ Hfresh).
Qed.

(** A create answered 201 passed validation, found no record with the email
    and was given an unused identifier. *)
Lemma create_201 (env : Env) (req : Request) (d : Db) :
  status (response (serve (post_employees env req) d)) = 201 →
  validationResult validateEmployee req = []
  ∧ List.find (λ e, eq_filter (req_body req !! "email") (fields e !! "email"))
      (db_employees d) = None
  ∧ generated_id env ∉ map _id (db_employees d).
Proof.
  unfold post_employees.
  destruct (validationResult validateEmployee req) as [|m rest]; [| run; discriminate].
  run. destruct (List.find _ (db_employees d)); [simpl; discriminate |]. simpl.
  destruct (existsb _ (db_employees d)) eqn:Hfresh; [simpl; discriminate |].
  intros _. split; [done |]. split; [done |]. by apply existsb_id_false.
Qed.

Lemma create_201_outcome (env : Env) (req : Request) (d : Db) :
  status (response (serve (post_employees env req) d)) = 201 →
  serve (post_employees env req) d =
    {| response := MkResponse 201
         (CreatedEmployee "Employee created successfully." (toString (generated_id env)));
       db_after := set_collection employees (db_employees d ++ [new_employee env req]) d;
       ops := [OpFindOne employees; OpInsertOne employees] |}.
Proof.
  intros (Hvalid & Hfind & Hfresh)%create_201.
  apply create_succeeds; [done | | done].
  intros e He. apply list_elem_of_In in He. exact (find_none _ _ Hfind e He).
Qed.

(** X10. A create answered 201 appends exactly one record and touches no
    other: the listing afterwards is the listing before followed by the new
    employee, under the identifier returned, with the salary and the date of
    joining converted and the other five values as supplied. *)
Theorem created_employee_listed_last (env : Env) (req req' : Request) (d : Db) :
  status (response (serve (post_employees env req) d)) = 201 →
  response (serve (get_employees req') (db_after (serve (post_employees env req) d)))
  = MkResponse 200
      (EmployeeList
         (map formatted (db_employees d) ++
          [ {| employee_id := toString (generated_id env);
               first_name := Some (stored (req_body req !! "first_name"));
               last_name := Some (stored (req_body req !! "last_name"));
               email := Some (stored (req_body req !! "email"));
               position := Some (stored (req_body req !! "position"));
               salary := Some (Number (req_body req !! "salary"));
               date_of_joining := Some (new_Date (req_body req !! "date_of_joining"));
               department := Some (stored (req_body req !! "department")) |} ])).
Proof.
  intros H201. rewrite (create_201_outcome env req d H201). run.
  by rewrite map_app.
Qed.

(** X11. Creating the same employee twice: once the first request is
    answered 201, a second request with the same body is answered 400 as a
    duplicate and inserts nothing, whatever identifier the driver would have
    generated.  The equality filter matches the email against itself. *)
Theorem create_twice_rejected (env env' : Env) (req : Request) (d : Db) (v : Value) :
  req_body req !! "email" = Some v →
  eq_filter (Some v) (Some v) = true →
  status (response (serve (post_employees env req) d)) = 201 →
  serve (post_employees env' req) (db_after (serve (post_employees env req) d)) =
    {| response := MkResponse 400 (Failure "Employee already exists with this email");
       db_after := db_after (serve (post_employees env req) d);
       ops := [OpFindOne employees] |}.
Proof.
  intros Hmail Hrefl H201.
  destruct (create_201 env req d H201) as (Hvalid & Hfind & _).
  rewrite (create_201_outcome env req d H201). simpl db_after.
  unfold post_employees. rewrite Hvalid. run.
  rewrite (find_app_none _ _ _ Hfind). simpl.
  rewrite lookup_insert_ne, lookup_insert_ne, lookup_insert_eq by done.
  rewrite Hmail. simpl. by rewrite Hrefl.
Qed.

End CreateMore.

(** The employee of the round trip, created on the sample store and listed. *)
Lemma created_employee_listed_last_witness :
  ∃ l, response
         (serve (get_employees (create_request ∅))
            (db_after (serve (@post_employees Reference.library Sample.env
                                (create_request round_trip_body)) Sample.db)))
       = MkResponse 200 (EmployeeList l)
       ∧ length l = 3%nat.
Proof.
  eexists. split.
  - apply (@created_employee_listed_last Reference.library Sample.env
             (create_request round_trip_body) (create_request ∅) Sample.db).
    by vm_compute.
  - reflexivity.
Defined.

(** The employee of the round trip, created twice. *)
Lemma create_twice_rejected_witness :
  let first := serve (@post_employees Reference.library Sample.env
                        (create_request round_trip_body)) Sample.db in
  let again := {| generated_id := MkObjectId "64b7f0c2a1d3e4f5a6b7c8da";
                  clock := clock Sample.env; salt := salt Sample.env |} in
  status (response first) = 201
  ∧ serve (@post_employees Reference.library again (create_request round_trip_body))
      (db_after first) =
      {| response := MkResponse 400 (Failure "Employee already exists with this email");
         db_after := db_after first;
         ops := [OpFindOne employees] |}.
Proof.
  intros first again.
  assert (H201 : status (response first) = 201) by (by vm_compute).
  split; [exact H201 |].
  apply (@create_twice_rejected Reference.library Sample.env again
           (create_request round_trip_body) Sample.db (VStr "a@b.com")).
  - reflexivity.
  - reflexivity.
  - exact H201.
Defined.

(** ** The email invariant *)

Section Emails.
Context `{Library}.

Lemma remove_first_subset (f : Doc → bool) (l : list Doc) (x : Doc) :
  x ∈ remove_first f l → x ∈ l.
Proof.
  induction l as [|a l IH]; [done |]. simpl.
  destruct (f a); [by apply list_elem_of_further |].
  intros [-> | Hx]%elem_of_cons;
    [apply list_elem_of_here | apply list_elem_of_further; by apply IH].
Qed.

Lemma create_keeps_unique_emails (env : Env) (req : Request) (d : Db) :
  (∀ v, isEmail (Some v) = true → eq_filter (Some v) (Some v) = true) →
  isEmail None = false →
  unique_emails (db_employees d) →
  unique_emails (db_employees (db_after (serve (post_employees env req) d))).
Proof.
  intros Hrefl Hundef Huniq.
  destruct (create_outcome env req d) as [-> | H201]; [done |].
  destruct (create_201 env req d H201) as (_ & Hfind & _).
  destruct (created_record env req d H201) as (Hok & _ & _).
  rewrite (create_201_outcome env req d H201). simpl.
  destruct (req_body req !! "email") as [v|] eqn:Hmail; [| congruence].
  assert (Hnew : fields (new_employee env req) !! "email" = Some v).
  { unfold new_employee; simpl. rewrite Hmail. simpl.
    by rewrite lookup_insert_ne, lookup_insert_ne, lookup_insert_eq. }
  assert (Hold : ∀ x, x ∈ db_employees d → fields x !! "email" ≠ Some v).
  { intros x Hx Hxv. apply list_elem_of_In in Hx.
    pose proof (find_none _ _ Hfind x Hx) as Hno. simpl in Hno.
    rewrite Hxv, (Hrefl v Hok) in Hno. discriminate. }
  intros a b [Ha | Ha]%elem_of_app [Hb | Hb]%elem_of_app Hsome Hab.
  - by apply Huniq.
  - apply list_elem_of_singleton in Hb as ->. rewrite Hnew in Hab.
    by destruct (Hold a Ha).
  - apply list_elem_of_singleton in Ha as ->. rewrite Hnew in Hab.
    by destruct (Hold b Hb).
  - apply list_elem_of_singleton in Ha as ->.
    by apply list_elem_of_singleton in Hb as ->.
Qed.

Lemma delete_keeps_unique_emails (req : Request) (d : Db) :
  unique_emails (db_employees d) →
  unique_emails (db_employees (db_after (serve (delete_employees req) d))).
Proof.
  intros Huniq. unfold delete_employees.
  destruct (validationResult validateQueryId req) as [|m rest]; [| by run].
  run. destruct (new_ObjectId _); [| done]. simpl.
  destruct (List.find _ (db_employees d)); [| done]. simpl.
  intros a b Ha%remove_first_subset Hb%remove_first_subset. by apply Huniq.
Qed.

(** X12. No two employees sharing an email is kept by every route but the
    update: whatever requests other than updates are served, in whatever
    order, a collection without a shared email stays so.  The equality
    filter matches an accepted email against itself and the email validator
    rejects [undefined]. *)
Theorem emails_stay_unique_without_update (cs : list Call) (d : Db) :
  (∀ v, isEmail (Some v) = true → eq_filter (Some v) (Some v) = true) →
  isEmail None = false →
  Forall (λ c, is_update c = false) cs →
  unique_emails (db_employees d) →
  unique_emails (db_employees (serve_all cs d)).
Proof.
  intros Hrefl Hundef Hcs. revert d.
  induction Hcs as [|c cs Hc _ IH]; intros d Huniq; [done |].
  simpl. apply IH. destruct c; try discriminate Hc.
  - route_run; exact Huniq.
  - route_run; exact Huniq.
  - route_run; exact Huniq.
  - by apply create_keeps_unique_emails.
  - route_run; exact Huniq.
  - by apply delete_keeps_unique_emails.
Qed.

End Emails.

(** Two creates with one email and a delete, from the sample store. *)
Lemma emails_stay_unique_without_update_witness :
  let cs := [CreateEmployee Sample.env (create_request round_trip_body);
             CreateEmployee Sample.env (create_request round_trip_body);
             DeleteEmployee (delete_request "64b7f0c2a1d3e4f5a6b7c8a1")] in
  unique_emails (db_employees (@serve_all strings_only_library cs Sample.db)).
Proof.
  intros cs. apply (@emails_stay_unique_without_update strings_only_library cs Sample.db).
  - intros [| | | | s | | | |] Hv; try discriminate Hv. simpl.
    apply String.eqb_refl.
  - reflexivity.
  - repeat constructor.
  - intros a b Ha Hb _ Hab. simpl in Ha, Hb.
    each_listed Ha; each_listed Hb; try reflexivity; vm_compute in Hab; discriminate.
Defined.

(** ** Updating and deleting, continued *)

Section UpdateMore.
Context `{Library}.

Lemma fetch_valid (o : ObjectId) :
  reads_back o → validationResult validateObjectId (fetch_request (toString o)) = [].
Proof.
  intros [Hid _]. apply validationResult_nil. unfold validateObjectId.
  apply Forall_cons; split; [| constructor].
  unfold violated, field_value; simpl. by rewrite lookup_singleton_eq, Hid.
Qed.

Lemma delete_valid (o : ObjectId) :
  reads_back o → validationResult validateQueryId (delete_request (toString o)) = [].
Proof.
  intros [Hid _]. apply validationResult_nil. unfold validateQueryId.
  apply Forall_cons; split; [| constructor].
  unfold violated, field_value; simpl. by rewrite lookup_singleton_eq, Hid.
Qed.

Lemma fetch_outcome (o : ObjectId) (d : Db) :
  reads_back o →
  serve (get_employees_eid (fetch_request (toString o))) d =
    {| response :=
         match List.find (by_id o) (db_employees d) with
         | Some e => MkResponse 200 (OneEmployee (formatted e))
         | None => MkResponse 404 (Failure "Employee not found")
         end;
       db_after := d;
       ops := [OpFindOne employees] |}.
Proof.
  intros Hrb. unfold get_employees_eid. rewrite (fetch_valid o Hrb). run.
  rewrite lookup_singleton_eq, (proj2 Hrb). simpl.
  by destruct (List.find _ (db_employees d)).
Qed.

(** X13. Once a stored employee is deleted, its identifier is gone:
    fetching it is answered 404 and no record of the collection carries
    it. *)
Theorem deleted_employee_not_fetched (d : Db) (e : Doc) :
  NoDup (map _id (db_employees d)) →
  e ∈ db_employees d →
  reads_back (_id e) →
  let deleted := serve (delete_employees (delete_request (toString (_id e)))) d in
  status (response deleted) = 200
  ∧ (_id e ∉ map _id (db_employees (db_after deleted)))
  ∧ response (serve (get_employees_eid (fetch_request (toString (_id e))))
                (db_after deleted))
    = MkResponse 404 (Failure "Employee not found").
Proof.
  intros Hnd He Hrb deleted.
  destruct (split_at_record _ _ Hnd He) as (l1 & l2 & Hsplit & Hl1 & Hl2).
  assert (Hoid : new_ObjectId (req_query (delete_request (toString (_id e))) !! "eid")
                 = Some (_id e)).
  { simpl. rewrite lookup_singleton_eq. apply Hrb. }
  assert (Hdel : deleted =
            {| response := MkResponse 200 (Message "Employee deleted successfully.");
               db_after := set_collection employees (l1 ++ l2) d;
               ops := [OpFindOne employees; OpDeleteOne employees] |}).
  { subst deleted.
    by apply (delete_existing _ d e l1 l2 (delete_valid _ Hrb) Hoid Hsplit Hl1). }
  assert (Hgone : _id e ∉ map _id (l1 ++ l2)).
  { intros (x & Hx & Hin)%list_elem_of_fmap.
    assert (by_id (_id e) x = false) as Hf.
    { apply elem_of_app in Hin as [Hin | Hin]; [by apply Hl1 | by apply Hl2]. }
    unfold by_id in Hf. apply bool_decide_eq_false in Hf. by apply Hf. }
  rewrite Hdel. simpl. split; [done |]. split; [done |].
  rewrite (fetch_outcome _ _ Hrb). simpl.
  by rewrite (find_by_id_fresh _ _ Hgone).
Qed.

(** The projection of a record after an update, field by field. *)
Lemma updated_field (env : Env) (req : Request) (e : Doc) (k : string) :
  fields (updated env req e) !! k =
  match req_body req !! k with
  | Some v => Some (stored_for env k v)
  | None => if bool_decide (k = "updated_at") then Some (VDate (clock env 0))
            else fields e !! k
  end.
Proof.
  unfold updated; simpl. destruct (req_body req !! k) as [v|] eqn:Hk.
  - pose proof (updateData_stored_for env _ _ _ Hk) as Hu.
    by rewrite (lookup_union_l' _ _ _ (mk_is_Some _ _ Hu)).
  - case_bool_decide as Hup.
    + subst k. by rewrite (lookup_union_l' _ _ _ (mk_is_Some _ _ (updateData_updated_at _ _))),
                 updateData_updated_at.
    + apply lookup_union_r.
      destruct (updateData _ _ !! k) eqn:Hu; [| done].
      assert (is_Some (updateData (VDate (clock env 0)) (req_body req) !! k)) as Hs by eauto.
      apply updateData_keys in Hs as [[? Hs] | ?]; congruence.
Qed.

(** X14. An update is read back by a fetch: after an update that passes
    validation on a stored employee and sets top-level fields, fetching the
    identifier returns, for each of the seven fields, the value the update
    stored for it when the body supplied one and the value before
    otherwise. *)
Theorem update_then_fetch (env : Env) (d : Db) (e : Doc) (b : gmap string Value) :
  NoDup (map _id (db_employees d)) →
  e ∈ db_employees d →
  reads_back (_id e) →
  validationResult (validateObjectId ++ validateEmployeeUpdate)
    (update_request (toString (_id e)) b) = [] →
  (∀ k, is_Some (b !! k) → top_level_field k = true) →
  let after := db_after (serve (put_employees_eid env
                                  (update_request (toString (_id e)) b)) d) in
  let read k old := match b !! k with
                    | Some v => Some (stored_for env k v)
                    | None => old
                    end in
  response (serve (get_employees_eid (fetch_request (toString (_id e)))) after)
  = MkResponse 200
      (OneEmployee
         {| employee_id := toString (_id e);
            first_name := read "first_name" (first_name (formatted e));
            last_name := read "last_name" (last_name (formatted e));
            email := read "email" (email (formatted e));
            position := read "position" (position (formatted e));
            salary := read "salary" (salary (formatted e));
            date_of_joining := read "date_of_joining" (date_of_joining (formatted e));
            department := read "department" (department (formatted e)) |}).
Proof.
  intros Hnd He Hrb Hvalid Htop after read.
  set (req := update_request (toString (_id e)) b) in *.
  destruct (split_at_record _ _ Hnd He) as (l1 & l2 & Hsplit & Hl1 & _).
  assert (Hoid : new_ObjectId (req_params req !! "eid") = Some (_id e)).
  { simpl. rewrite lookup_singleton_eq. apply Hrb. }
  subst after. rewrite (put_existing env req d e l1 l2 Hvalid Hoid Hsplit Hl1 Htop).
  rewrite (fetch_outcome _ _ Hrb). simpl.
  assert (Hself : by_id (_id e) (updated env req e) = true)
    by exact (by_id_self (updated env req e)).
  rewrite (find_at_record _ _ _ _ Hl1 Hself).
  unfold formatted. rewrite !updated_field. subst read. simpl.
  repeat case_bool_decide; try discriminate. reflexivity.
Qed.

End UpdateMore.

(** Deleting the first sample employee, then fetching it. *)
Lemma deleted_employee_not_fetched_witness :
  let deleted := serve (@delete_employees Reference.library
                          (delete_request (toString (_id Sample.ann)))) Sample.db in
  status (response deleted) = 200
  ∧ (_id Sample.ann ∉ map _id (db_employees (db_after deleted)))
  ∧ response (serve (@get_employees_eid Reference.library
                       (fetch_request (toString (_id Sample.ann)))) (db_after deleted))
    = MkResponse 404 (Failure "Employee not found").
Proof.
  apply (@deleted_employee_not_fetched Reference.library Sample.db Sample.ann).
  - decided.
  - simpl. listed.
  - split; reflexivity.
Defined.

(** Raising the salary of the first sample employee, then fetching it. *)
Lemma update_then_fetch_witness :
  let b : gmap string Value := {["salary" := VStr "80000"]} in
  let after := db_after (serve (@put_employees_eid Reference.library Sample.env
                                  (update_request (toString (_id Sample.ann)) b))
                           Sample.db) in
  ∃ f, response (serve (@get_employees_eid Reference.library
                          (fetch_request (toString (_id Sample.ann)))) after)
       = MkResponse 200 (OneEmployee f)
       ∧ salary f = Some (VNum 80000)
       ∧ position f = Some (VStr "Eng").
Proof.
  intros b after. eexists. split.
  - apply (@update_then_fetch Reference.library Sample.env Sample.db Sample.ann b).
    + decided.
    + simpl. listed.
    + split; reflexivity.
    + by vm_compute.
    + by_keys; reflexivity.
  - split; by vm_compute.
Defined.

Section UpdateAgain.
Context `{Library}.

Lemma updated_twice (env1 env2 : Env) (req : Request) (e : Doc) :
  updated env2 req (updated env1 req e) = updated env2 req e.
Proof.
  assert (Hf : fields (updated env2 req (updated env1 req e))
               = fields (updated env2 req e)).
  { apply map_eq. intros k. rewrite !updated_field.
    destruct (req_body req !! k); [done |]. by case_bool_decide. }
  unfold updated in *. simpl in *. by rewrite Hf.
Qed.

(** X15. Repeating an update leaves what the last one alone would leave:
    served twice on a stored employee, with top-level fields, the same
    update gives the database that the second request gives on its own. *)
Theorem update_repeated (env1 env2 : Env) (d : Db) (e : Doc) (b : gmap string Value) :
  NoDup (map _id (db_employees d)) →
  e ∈ db_employees d →
  reads_back (_id e) →
  validationResult (validateObjectId ++ validateEmployeeUpdate)
    (update_request (toString (_id e)) b) = [] →
  (∀ k, is_Some (b !! k) → top_level_field k = true) →
  let req := update_request (toString (_id e)) b in
  db_after (serve (put_employees_eid env2 req)
              (db_after (serve (put_employees_eid env1 req) d)))
  = db_after (serve (put_employees_eid env2 req) d).
Proof.
  intros Hnd He Hrb Hvalid Htop req.
  destruct (split_at_record _ _ Hnd He) as (l1 & l2 & Hsplit & Hl1 & _).
  assert (Hoid : new_ObjectId (req_params req !! "eid") = Some (_id e)).
  { simpl. rewrite lookup_singleton_eq. apply Hrb. }
  pose proof (put_existing env1 req d e l1 l2 Hvalid Hoid Hsplit Hl1 Htop) as E1.
  pose proof (put_existing env2 req d e l1 l2 Hvalid Hoid Hsplit Hl1 Htop) as E2.
  pose proof (put_existing env2 req
                (set_collection employees (l1 ++ updated env1 req e :: l2) d)
                (updated env1 req e) l1 l2 Hvalid Hoid eq_refl Hl1 Htop) as E3.
  rewrite E1. cbn [db_after]. rewrite E3, E2. simpl. by rewrite updated_twice.
Qed.

(** X16. An update with an empty body on a stored employee is answered 200
    and refreshes the update timestamp only: the record keeps every field
    and carries the time of the request as [updated_at]. *)
Theorem empty_update_refreshes_timestamp (env : Env) (d : Db) (e : Doc) :
  NoDup (map _id (db_employees d)) →
  e ∈ db_employees d →
  reads_back (_id e) →
  ∃ l1 l2,
    db_employees d = l1 ++ e :: l2
    ∧ serve (put_employees_eid env (update_request (toString (_id e)) ∅)) d =
        {| response := MkResponse 200 (Message "Employee details updated successfully.");
           db_after :=
             set_collection employees
               (l1 ++ {| _id := _id e;
                         fields := <["updated_at" := VDate (clock env 0)]> (fields e) |}
                   :: l2) d;
           ops := [OpFindOne employees; OpUpdateOne employees] |}.
Proof.
  intros Hnd He [Hid Hoid].
  destruct (split_at_record _ _ Hnd He) as (l1 & l2 & Hsplit & Hl1 & _).
  exists l1, l2. split; [done |].
  set (req := update_request (toString (_id e)) ∅).
  assert (Hvalid : validationResult (validateObjectId ++ validateEmployeeUpdate) req = []).
  { apply validationResult_nil. unfold validateObjectId, validateEmployeeUpdate. simpl app.
    repeat (apply Forall_cons; split); [.. | constructor].
    all: unfold violated, field_value; simpl.
    - by rewrite lookup_singleton_eq, Hid.
    - done.
    - done.
    - done.
    - done.
    - done.
    - done.
    - done. }
  assert (Hoid' : new_ObjectId (req_params req !! "eid") = Some (_id e)).
  { simpl. by rewrite lookup_singleton_eq. }
  assert (Htop : ∀ k, is_Some (req_body req !! k) → top_level_field k = true).
  { intros k [x Hk]. simpl in Hk. by rewrite lookup_empty in Hk. }
  rewrite (put_existing env req d e l1 l2 Hvalid Hoid' Hsplit Hl1 Htop).
  assert (Hf : fields (updated env req e)
               = <["updated_at" := VDate (clock env 0)]> (fields e)).
  { apply map_eq. intros k. rewrite updated_field. simpl. rewrite lookup_empty.
    case_bool_decide as Hk; [subst k; by rewrite lookup_insert_eq |].
    by rewrite lookup_insert_ne. }
  assert (Hu : updated env req e
               = {| _id := _id e;
                    fields := <["updated_at" := VDate (clock env 0)]> (fields e) |}).
  { rewrite <- Hf. reflexivity. }
  by rewrite Hu.
Qed.

Lemma call_keeps_emails_valid (c : Call) (d : Db) :
  isEmail None = false →
  sets_top_level c →
  emails_valid (db_employees d) →
  emails_valid (db_employees (db_after (serve (handler c) d))).
Proof.
  intros Hundef Htop Hvalid. destruct c.
  - route_run; exact Hvalid.
  - route_run; exact Hvalid.
  - route_run; exact Hvalid.
  - by apply create_keeps_emails_valid.
  - route_run; exact Hvalid.
  - by apply update_keeps_emails_valid.
  - by apply delete_keeps_emails_valid.
Qed.

(** X17. Every stored email stays one the validator accepts: whatever
    requests are served, in whatever order, with updates that set top-level
    fields, a collection in which every record carries an accepted email
    stays so.  The email validator rejects [undefined]. *)
Theorem emails_stay_valid (cs : list Call) (d : Db) :
  isEmail None = false →
  Forall sets_top_level cs →
  emails_valid (db_employees d) →
  emails_valid (db_employees (serve_all cs d)).
Proof.
  intros Hundef Hcs. revert d.
  induction Hcs as [|c cs Hc _ IH]; intros d Hvalid; [done |].
  simpl. apply IH. by apply call_keeps_emails_valid.
Qed.

End UpdateAgain.

(** The same promotion, sent twice. *)
Lemma update_repeated_witness :
  let req := update_request (toString (_id Sample.ann)) {["position" := VStr "Lead"]} in
  let later := {| generated_id := generated_id Sample.env;
                  clock := λ n, 1800000000000 + Z.of_nat n;
                  salt := salt Sample.env |} in
  db_after (serve (@put_employees_eid Reference.library later req)
              (db_after (serve (@put_employees_eid Reference.library Sample.env req)
                           Sample.db)))
  = db_after (serve (@put_employees_eid Reference.library later req) Sample.db).
Proof.
  intros req later.
  apply (@update_repeated Reference.library Sample.env later Sample.db Sample.ann
           {["position" := VStr "Lead"]}).
  - decided.
  - simpl. listed.
  - split; reflexivity.
  - by vm_compute.
  - by_keys; reflexivity.
Defined.

(** An empty update of the second sample employee. *)
Lemma empty_update_refreshes_timestamp_witness :
  ∃ l1 l2,
    db_employees Sample.db = l1 ++ Sample.bob :: l2
    ∧ serve (@put_employees_eid Reference.library Sample.env
               (update_request (toString (_id Sample.bob)) ∅)) Sample.db =
        {| response := MkResponse 200 (Message "Employee details updated successfully.");
           db_after :=
             set_collection employees
               (l1 ++ {| _id := _id Sample.bob;
                         fields := <["updated_at" := VDate (clock Sample.env 0)]>
                                     (fields Sample.bob) |}
                   :: l2) Sample.db;
           ops := [OpFindOne employees; OpUpdateOne employees] |}.
Proof.
  apply (@empty_update_refreshes_timestamp Reference.library Sample.env Sample.db Sample.bob).
  - decided.
  - simpl. listed.
  - split; reflexivity.
Defined.

(** A create, an update of the email and a delete on the sample store. *)
Lemma emails_stay_valid_witness :
  let cs := [CreateEmployee Sample.env (create_request round_trip_body);
             UpdateEmployee Sample.env
               (update_request (toString (_id Sample.ann))
                  {["email" := VStr "lee@example.com"]});
             DeleteEmployee (delete_request (toString (_id Sample.bob)))] in
  @emails_valid Reference.library
    (db_employees (@serve_all Reference.library cs Sample.db)).
Proof.
  intros cs. apply (@emails_stay_valid Reference.library cs Sample.db).
  - reflexivity.
  - apply Forall_cons; split; [exact I |]. apply Forall_cons; split.
    { simpl. by_keys; reflexivity. }
    apply Forall_cons; split; [exact I | by apply Forall_nil].
  - intros e He. simpl in He. each_listed He; eexists; split; reflexivity.
Defined.

(** ** Signing up *)

Section Signup.
Context `{Library}.


Lemma signup_succeeds (env : Env) (req : Request) (d : Db) (hashed : Value) :
  validationResult validateSignup req = [] →
  (∀ u, u ∈ db_users d →
        eq_filter (req_body req !! "email") (fields u !! "email") = false
        ∧ eq_filter (req_body req !! "username") (fields u !! "username") = false) →
  bcrypt_hash (req_body req !! "password") (salt env) = Some hashed →
  generated_id env ∉ map _id (db_users d) →
  serve (post_signup env req) d =
    {| response := MkResponse 201
         (CreatedUser "User created successfully." (toString (generated_id env)));
       db_after := set_collection users (db_users d ++ [new_user env req hashed]) d;
       ops := [OpFindOne users; OpInsertOne users] |}.
Proof.
  intros Hvalid Hnone Hhash Hfresh. unfold post_signup. rewrite Hvalid. run.
  rewrite find_none_of.
  2: { intros u Hu. destruct (Hnone u Hu) as [-> ->]. done. }
  simpl. rewrite Hhash. simpl.
  by rewrite (existsb_fresh _ _ Hfresh).
Qed.

(** A signup answered 201: what it found and what it stored. *)
Lemma signup_201 (env : Env) (req : Request) (d : Db) :
  status (response (serve (post_signup env req) d)) = 201 →
  ∃ hashed,
    bcrypt_hash (req_body req !! "password") (salt env) = Some hashed
    ∧ (∀ u, u ∈ db_users d →
            eq_filter (req_body req !! "email") (fields u !! "email") = false
            ∧ eq_filter (req_body req !! "username") (fields u !! "username") = false)
    ∧ isEmail (req_body req !! "email") = true
    ∧ serve (post_signup env req) d =
        {| response := MkResponse 201
             (CreatedUser "User created successfully." (toString (generated_id env)));
           db_after := set_collection users (db_users d ++ [new_user env req hashed]) d;
           ops := [OpFindOne users; OpInsertOne users] |}.
Proof.
  unfold post_signup.
  destruct (validationResult validateSignup req) as [|m rest] eqn:Hvalid;
    [| run; discriminate].
  assert (Hmail : isEmail (req_body req !! "email") = true).
  { apply validationResult_nil in Hvalid. unfold validateSignup in Hvalid.
    apply Forall_cons in Hvalid as [_ Hvalid]. apply Forall_cons in Hvalid as [Hmail _].
    unfold violated, field_value in Hmail; simpl in Hmail.
    destruct (req_body req !! "email"); by apply negb_false_iff in Hmail. }
  run. destruct (List.find _ (db_users d)) eqn:Hfind; [simpl; discriminate |]. simpl.
  destruct (bcrypt_hash _ _) as [hashed|] eqn:Hhash; [| simpl; discriminate]. simpl.
  destruct (existsb _ (db_users d)) eqn:Hfresh; [simpl; discriminate |]. simpl.
  intros _. exists hashed. split; [done |]. split; [| by split].
  intros u Hu. apply list_elem_of_In in Hu.
  pose proof (find_none _ _ Hfind u Hu) as Hno. simpl in Hno.
  by apply orb_false_elim in Hno.
Qed.

(** X19. A signup answered 201 appends one user and changes no other: the
    record stored carries the username and the email supplied and, as its
    password, the bcrypt hash of the one supplied. *)
Theorem signup_stores_hash (env : Env) (req : Request) (d : Db) :
  status (response (serve (post_signup env req) d)) = 201 →
  ∃ u, db_users (db_after (serve (post_signup env req) d)) = db_users d ++ [u]
       ∧ _id u = generated_id env
       ∧ fields u !! "username" = Some (stored (req_body req !! "username"))
       ∧ fields u !! "email" = Some (stored (req_body req !! "email"))
       ∧ bcrypt_hash (req_body req !! "password") (salt env) = fields u !! "password".
Proof.
  intros (hashed & Hhash & _ & _ & ->)%signup_201. simpl.
  exists (new_user env req hashed). split; [done |]. split; [done |].
  unfold new_user; simpl. rewrite Hhash.
  split_and!; by simplify_map_eq.
Qed.

End Signup.


(** A new user on the sample store. *)
Lemma signup_stores_hash_witness :
  let req := login_request {["username" := VStr "carol"; "email" := VStr "carol@example.com";
                             "password" := VStr "s3cret!"]} in
  ∃ u, db_users (db_after (serve (@post_signup Reference.library Sample.env req) Sample.db))
       = db_users Sample.db ++ [u]
       ∧ fields u !! "password" = Some (VStr "$2b$10$N9qo8uLOickgx2ZMRZoMye$s3cret!").
Proof.
  intros req.
  destruct (@signup_stores_hash Reference.library Sample.env req Sample.db)
    as (u & Hu & _ & _ & _ & Hpw).
  - by vm_compute.
  - exists u. split; [exact Hu |]. rewrite <- Hpw. reflexivity.
Defined.

Section SignupThenLogin.
Context `{Library}.

Lemma new_user_fields (env : Env) (req : Request) (hashed : Value) :
  fields (new_user env req hashed) !! "email" = Some (stored (req_body req !! "email"))
  ∧ fields (new_user env req hashed) !! "username"
    = Some (stored (req_body req !! "username"))
  ∧ fields (new_user env req hashed) !! "password" = Some hashed.
Proof. unfold new_user; simpl. split_and!; by simplify_map_eq. Qed.

(** X20. Signing up, then logging in with the same email and password, is
    answered 200, provided no user stored before has a username that matches
    the email: the login looks the email up among the usernames too, the
    signup does not.  The equality filter matches the email against itself
    and bcrypt verifies a password against its own hash. *)
Theorem signup_then_login (env : Env) (req login : Request) (d : Db) (v p : Value) :
  req_body req !! "email" = Some v →
  req_body req !! "password" = Some p →
  req_body login !! "email" = Some v →
  req_body login !! "password" = Some p →
  validationResult validateLogin login = [] →
  eq_filter (Some v) (Some v) = true →
  (∀ hashed, bcrypt_hash (Some p) (salt env) = Some hashed →
             bcrypt_compare (Some p) (Some hashed) = Some true) →
  (∀ u, u ∈ db_users d → eq_filter (Some v) (fields u !! "username") = false) →
  status (response (serve (post_signup env req) d)) = 201 →
  response (serve (post_login login) (db_after (serve (post_signup env req) d)))
  = MkResponse 200 (LoggedIn "Login successful." "Optional implementation").
Proof.
  intros Hmail Hpw Hlmail Hlpw Hvalid Hrefl Hbcrypt Hnames
    (hashed & Hhash & Hnone & _ & ->)%signup_201.
  rewrite (login_validated login _ Hvalid).
  cbn [response db_after set_collection db_users].
  destruct (new_user_fields env req hashed) as (Hfe & _ & Hfp).
  rewrite Hlmail, Hlpw. rewrite Hmail in Hnone, Hfe. rewrite Hpw in Hhash.
  change (stored (Some v)) with v in Hfe.
  rewrite find_app_none.
  2: { apply find_none_of. intros u Hu. unfold email_or_username.
       by rewrite (proj1 (Hnone u Hu)), (Hnames u Hu). }
  assert (Hm : email_or_username (Some v) (new_user env req hashed) = true).
  { unfold email_or_username. by rewrite Hfe, Hrefl. }
  cbn [List.find]. rewrite Hm.
  by rewrite Hfp, (Hbcrypt hashed Hhash).
Qed.

(** X21. The same login fails when a user stored before has a username that
    matches the new email: the signup is still answered 201, since it
    compares usernames with the username only, but the login finds the older
    user first and, the password not being theirs, is answered 401. *)
Theorem signup_shadowed_by_username (env : Env) (req login : Request) (d : Db)
    (v p : Value) (earlier later : list Doc) (older : Doc) :
  req_body req !! "email" = Some v →
  req_body login !! "email" = Some v →
  req_body login !! "password" = Some p →
  validationResult validateLogin login = [] →
  db_users d = earlier ++ older :: later →
  (∀ u, u ∈ earlier → eq_filter (Some v) (fields u !! "username") = false) →
  eq_filter (Some v) (fields older !! "username") = true →
  bcrypt_compare (Some p) (fields older !! "password") = Some false →
  status (response (serve (post_signup env req) d)) = 201 →
  response (serve (post_login login) (db_after (serve (post_signup env req) d)))
  = unauthorized.
Proof.
  intros Hmail Hlmail Hlpw Hvalid Hsplit Hearlier Holder Hwrong
    (hashed & _ & Hnone & _ & ->)%signup_201.
  rewrite (login_validated login _ Hvalid).
  cbn [response db_after set_collection db_users].
  rewrite Hlmail, Hlpw, Hsplit. rewrite Hmail, Hsplit in Hnone.
  rewrite <- app_assoc. simpl.
  rewrite (find_at_record (email_or_username (Some v)) earlier (later ++ _) older).
  - by rewrite Hwrong.
  - intros u Hu. unfold email_or_username.
    rewrite (Hearlier u Hu), orb_false_r.
    apply Hnone, elem_of_app. by left.
  - unfold email_or_username. rewrite Holder. apply orb_true_r.
Qed.

End SignupThenLogin.

(** A new user signs up and logs in on the sample store. *)
Lemma signup_then_login_witness :
  let req := login_request {["username" := VStr "carol"; "email" := VStr "carol@example.com";
                             "password" := VStr "s3cret!"]} in
  let login := login_request {["email" := VStr "carol@example.com";
                               "password" := VStr "s3cret!"]} in
  response (serve (@post_login Reference.library login)
              (db_after (serve (@post_signup Reference.library Sample.env req) Sample.db)))
  = MkResponse 200 (LoggedIn "Login successful." "Optional implementation").
Proof.
  intros req login.
  apply (@signup_then_login Reference.library Sample.env req login Sample.db
           (VStr "carol@example.com") (VStr "s3cret!")).
  - reflexivity.
  - reflexivity.
  - reflexivity.
  - reflexivity.
  - by vm_compute.
  - reflexivity.
  - intros hashed [= <-]. by vm_compute.
  - simpl. intros u Hu. each_listed Hu; by vm_compute.
  - by vm_compute.
Defined.

(** A new user whose email is the username of the second sample account. *)
Lemma signup_shadowed_by_username_witness :
  let req := login_request {["username" := VStr "opsnew"; "email" := VStr "ops@example.com";
                             "password" := VStr "s3cret!"]} in
  let login := login_request {["email" := VStr "ops@example.com";
                               "password" := VStr "s3cret!"]} in
  status (response (serve (@post_signup Reference.library Sample.env req) Sample.db)) = 201
  ∧ response (serve (@post_login Reference.library login)
                (db_after (serve (@post_signup Reference.library Sample.env req) Sample.db)))
    = unauthorized.
Proof.
  intros req login.
  assert (H201 : status (response (serve (@post_signup Reference.library Sample.env req)
                                     Sample.db)) = 201) by (by vm_compute).
  split; [exact H201 |].
  apply (@signup_shadowed_by_username Reference.library Sample.env req login Sample.db
           (VStr "ops@example.com") (VStr "s3cret!")
           [Sample.account_1] [] Sample.account_2).
  - reflexivity.
  - reflexivity.
  - reflexivity.
  - by vm_compute.
  - reflexivity.
  - intros u Hu. each_listed Hu. by vm_compute.
  - by vm_compute.
  - by vm_compute.
  - exact H201.
Defined.

(** ** What a fetch does not show *)

Section Hidden.
Context `{Library}.

(** X22. Keys outside the seven declared fields are stored by an update but
    never shown: after an update of a stored employee whose body carries
    only such keys (top-level ones), the update is answered 200, the record
    holds them, and a fetch returns the projection it returned before. *)
Theorem undeclared_keys_not_shown (env : Env) (d : Db) (e : Doc) (b : gmap string Value) :
  NoDup (map _id (db_employees d)) →
  e ∈ db_employees d →
  reads_back (_id e) →
  (∀ k, is_Some (b !! k) → top_level_field k = true ∧ k ∉ employee_fields) →
  let put := serve (put_employees_eid env (update_request (toString (_id e)) b)) d in
  status (response put) = 200
  ∧ (∃ e', e' ∈ db_employees (db_after put) ∧ _id e' = _id e
           ∧ ∀ k v, b !! k = Some v → k ≠ "updated_at" → fields e' !! k = Some v)
  ∧ response (serve (get_employees_eid (fetch_request (toString (_id e)))) (db_after put))
    = response (serve (get_employees_eid (fetch_request (toString (_id e)))) d).
Proof.
  intros Hnd He Hrb Hkeys put.
  set (req := update_request (toString (_id e)) b) in *.
  destruct (split_at_record _ _ Hnd He) as (l1 & l2 & Hsplit & Hl1 & _).
  assert (Hoid : new_ObjectId (req_params req !! "eid") = Some (_id e)).
  { simpl. rewrite lookup_singleton_eq. apply Hrb. }
  assert (Habsent : ∀ k, k ∈ employee_fields → b !! k = None).
  { intros k Hk. destruct (b !! k) eqn:Hb; [| done].
    by destruct (Hkeys k (mk_is_Some _ _ Hb)) as [_ []]. }
  assert (Hvalid : validationResult (validateObjectId ++ validateEmployeeUpdate) req = []).
  { apply validationResult_nil. unfold validateObjectId, validateEmployeeUpdate. simpl app.
    repeat (apply Forall_cons; split); [.. | constructor].
    all: unfold violated, field_value; simpl.
    1: by rewrite lookup_singleton_eq, (proj1 Hrb).
    all: by rewrite Habsent by (unfold employee_fields; listed). }
  assert (Htop : ∀ k, is_Some (req_body req !! k) → top_level_field k = true).
  { intros k Hk. by apply Hkeys. }
  subst put. rewrite (put_existing env req d e l1 l2 Hvalid Hoid Hsplit Hl1 Htop).
  cbn [response status db_after].
  split; [done |]. split.
  - exists (updated env req e). split; [| split; [done |]].
    { simpl. apply elem_of_app. right. apply list_elem_of_here. }
    intros k v Hb Hne. rewrite updated_field. simpl. rewrite Hb.
    unfold stored_for. rewrite (bool_decide_eq_false_2 _ Hne).
    assert (Hnot : k ∉ employee_fields) by (by apply Hkeys; rewrite Hb).
    assert (k ≠ "salary") as Hs.
    { intros ->. apply Hnot. unfold employee_fields. listed. }
    assert (k ≠ "date_of_joining") as Hj.
    { intros ->. apply Hnot. unfold employee_fields. listed. }
    by rewrite (bool_decide_eq_false_2 _ Hs), (bool_decide_eq_false_2 _ Hj).
  - rewrite !(fetch_outcome _ _ Hrb). cbn [response db_employees set_collection].
    assert (Hself : by_id (_id e) (updated env req e) = true)
      by exact (by_id_self (updated env req e)).
    rewrite (find_at_record _ _ _ _ Hl1 Hself).
    rewrite Hsplit, (find_at_record _ _ _ _ Hl1 (by_id_self e)).
    unfold formatted. rewrite !updated_field. simpl req_body.
    rewrite !Habsent by (unfold employee_fields; listed).
    repeat case_bool_decide; try discriminate. reflexivity.
Qed.

End Hidden.

(** A nickname and a forged creation time for the first sample employee. *)
Lemma undeclared_keys_not_shown_witness :
  let b : gmap string Value := {["nickname" := VStr "Annie"; "created_at" := VStr "never"]} in
  let put := serve (@put_employees_eid Reference.library Sample.env
                      (update_request (toString (_id Sample.ann)) b)) Sample.db in
  status (response put) = 200
  ∧ response (serve (@get_employees_eid Reference.library
                       (fetch_request (toString (_id Sample.ann)))) (db_after put))
    = MkResponse 200 (OneEmployee (formatted Sample.ann)).
Proof.
  intros b put.
  destruct (@undeclared_keys_not_shown Reference.library Sample.env Sample.db Sample.ann b)
    as (H200 & _ & Hsame).
  - decided.
  - simpl. listed.
  - split; reflexivity.
  - by_keys; (split; [reflexivity |]); unfold employee_fields; intros Hin; not_listed Hin.
  - split; [exact H200 |]. fold put in Hsame. rewrite Hsame. by vm_compute.
Defined.

(** ** An identifier that passes validation and is no identifier *)

Section Unparsed.
Context `{Library}.

(** C6 fails on the code.  A fetch, update or delete whose identifier passes
    the [isMongoId] chain although [new ObjectId] cannot read it (a repeated
    [eid] query parameter, which the request carries as an array of
    individually valid identifiers) is answered 500, not 400; no database
    call is made and the store is as before. *)
Theorem unread_identifier_answers_500 (r : ByIdRoute) (env : Env) (req : Request) (d : Db) :
  validationResult (by_id_chains r) req = [] →
  new_ObjectId (identifier r req) = None →
  serve (by_id_route env r req) d =
    {| response := MkResponse 500 (Failure "Internal server error");
       db_after := d;
       ops := [] |}.
Proof.
  intros Hvalid Hoid.
  destruct r; simpl in Hvalid, Hoid; unfold by_id_route.
  - unfold get_employees_eid. rewrite Hvalid. run. by rewrite Hoid.
  - unfold put_employees_eid.
    change (validationResult (validateObjectId ++ validateEmployeeUpdate) req)
      with (validationResult (by_id_chains UpdateById) req).
    simpl by_id_chains. rewrite Hvalid. run. by rewrite Hoid.
  - unfold delete_employees. rewrite Hvalid. run. by rewrite Hoid.
Qed.

End Unparsed.

(** DELETE /employees?eid=...a1&eid=...b2 on the sample store: each element
    is a valid identifier, the pair is not one. *)
Lemma unread_identifier_answers_500_witness :
  let req := {| req_params := ∅;
                req_query := {["eid" := VArr [VStr "64b7f0c2a1d3e4f5a6b7c8a1";
                                              VStr "64b7f0c2a1d3e4f5a6b7c8b2"]]};
                req_body := ∅ |} in
  @isMongoId Reference.library (identifier DeleteById req) = true
  ∧ serve (@by_id_route Reference.library Sample.env DeleteById req) Sample.db =
      {| response := MkResponse 500 (Failure "Internal server error");
         db_after := Sample.db;
         ops := [] |}.
Proof.
  intros req. split; [reflexivity |].
  apply (@unread_identifier_answers_500 Reference.library DeleteById Sample.env req
           Sample.db).
  - by vm_compute.
  - reflexivity.
Defined.
